(** * AWS Toolkit for VS Code: SAM application creation, verified model

    A shallow embedding of
      - [src/shared/awsClientBuilder.ts]        (module [AwsClientBuilder]),
      - [src/lambda/commands/createNewSamApp.ts] (modules [Reconciler], [Workflow]),
    together with the two collaborators whose sources are exercised by the
    test-suite only: the SAM CLI exit-code validator (module [ExitCode]) and
    the [sam init] argument builder (modules [Json], [SamCliInit]).

    Conventions.
      - A JavaScript string is a [string]; every [ascii] stands for one code
        unit in the range 0..255.
      - [undefined] is [None]; a value that JavaScript tests for truthiness is
        tested with [truthy].
      - [await] is plain sequencing: one workflow run is strictly sequential. *)

From stdpp Require Import gmap strings list fin_maps.
From Stdlib Require Import ZArith Ascii String Lia.

Open Scope string_scope.
Open Scope list_scope.
Open Scope Z_scope.

(** ** Common definitions *)

(** Errors that travel through [throw] / rejected promises. *)
Inductive Error : Type :=
  | GenericError (message : string)
  | UnexpectedExitCodeError
      (expectedCode : Z) (actualCode : option Z)
      (capturedStdout capturedStderr : string) (cause : option string).

Definition errorMessage (e : Error) : string :=
  match e with
  | GenericError m => m
  | UnexpectedExitCodeError _ _ _ _ (Some m) => m
  | UnexpectedExitCodeError _ _ _ _ None => EmptyString
  end.

(** JavaScript truthiness of a [string | undefined]. *)
Definition truthy (s : option string) : bool :=
  match s with
  | Some (String _ _) => true
  | _ => false
  end.

Definition flat (l : list string) : string := fold_right String.append EmptyString l.

(** ** Sequential effects

    A statement runs from a state to a state and completes normally, by
    [return], or by [throw]. *)

Inductive Completion (A : Type) : Type :=
  | Normal (a : A)
  | Return
  | Throw (e : Error).
Arguments Normal {A} a.
Arguments Return {A}.
Arguments Throw {A} e.

Definition M (S A : Type) : Type := S → S * Completion A.

Definition ret {S A} (a : A) : M S A := λ s, (s, Normal a).
Definition throw {S A} (e : Error) : M S A := λ s, (s, Throw e).
Definition returnNow {S A} : M S A := λ s, (s, Return).
Definition modify {S} (f : S → S) : M S unit := λ s, (f s, Normal tt).
Definition gets {S A} (f : S → A) : M S A := λ s, (s, Normal (f s)).

Definition bind {S A B} (m : M S A) (k : A → M S B) : M S B :=
  λ s, match m s with
       | (s1, Normal a) => k a s1
       | (s1, Return) => (s1, Return)
       | (s1, Throw e) => (s1, Throw e)
       end.

(** The outcome of an external call that either yields a value or fails. *)
Definition liftResult {S A} (r : Error + A) : M S A :=
  match r with
  | inl e => throw e
  | inr a => ret a
  end.

(** [try { body } catch (err) { handler } finally { finalizer }] *)
Definition tryCatchFinally {S} (body : M S unit) (handler : Error → M S unit)
    (finalizer : M S unit) : M S unit :=
  λ s,
    let '(s1, c1) := body s in
    let '(s2, c2) := match c1 with
                     | Throw e => handler e s1
                     | _ => (s1, c1)
                     end in
    let '(s3, c3) := finalizer s2 in
    match c3 with
    | Normal _ => (s3, c2)
    | _ => (s3, c3)
    end.

(** The body of a function: a [return] inside it ends the call normally. *)
Definition functionBody {S} (m : M S unit) : M S unit :=
  λ s, match m s with
       | (s1, Return) => (s1, Normal tt)
       | r => r
       end.

#[global] Instance M_ret {S} : MRet (M S) := λ A, @ret S A.
#[global] Instance M_bind {S} : MBind (M S) := λ A B k m, bind m k.

(** * Part I: the model *)

(** ** [DefaultAWSClientBuilder] *)

Module AwsClientBuilder.

Definition Credentials := string.

Record ServiceConfigurationOptions : Type := mkOptions {
  credentials : option Credentials;
  region : option string;
  customUserAgent : option string;
  endpoint : option string
}.

(** The object literal [{}]. *)
Definition emptyOptions : ServiceConfigurationOptions :=
  mkOptions None None None None.

(** What the builder reads from its surroundings: [vscode.env.appName],
    [vscode.version], [pluginVersion], the [aws.endpoint] setting and the
    outcome of [this._awsContext.getCredentials()]. *)
Record VsCode : Type := mkVsCode {
  appName : string;
  version : string;
  pluginVersion : string;
  endpointSetting : option string;
  getCredentials : Error + Credentials
}.

(** The class [\s] of a JavaScript regular expression, on code units below 256. *)
Definition isWhiteSpace (c : ascii) : bool :=
  match nat_of_ascii c with
  | 9%nat | 10%nat | 11%nat | 12%nat | 13%nat | 32%nat | 160%nat => true
  | _ => false
  end.

(** [s.replace(/\s/g, '-')] *)
Fixpoint replaceWhiteSpace (s : string) : string :=
  match s with
  | EmptyString => EmptyString
  | String c rest =>
      String (if isWhiteSpace c then "-"%char else c) (replaceWhiteSpace rest)
  end.

Definition productName : string := "AWS-Toolkit-For-VSCode".

(** [`AWS-Toolkit-For-VSCode/${pluginVersion} ${platformName}/${version}`] *)
Definition userAgent (h : VsCode) : string :=
  let platformName := replaceWhiteSpace (appName h) in
  flat [productName; "/"; pluginVersion h; " "; platformName; "/"; version h].

Definition createAndConfigureServiceClient {T : Type} (h : VsCode)
    (awsServiceFactory : ServiceConfigurationOptions -> T)
    (awsServiceOpts : option ServiceConfigurationOptions)
    (region_ : option string)
    (addUserAgent_ : option bool) : Error + T :=
  (* addUserAgent: boolean = true *)
  let addUserAgent := default true addUserAgent_ in
  (* if (!awsServiceOpts) awsServiceOpts = {} *)
  let opts0 := default emptyOptions awsServiceOpts in
  (* if (!awsServiceOpts.credentials) ... = await getCredentials() *)
  let withCredentials :=
    match credentials opts0 with
    | Some _ => inr opts0
    | None =>
        match getCredentials h with
        | inl e => inl e
        | inr c => inr (mkOptions (Some c) (region opts0) (customUserAgent opts0) (endpoint opts0))
        end
    end in
  match withCredentials with
  | inl e => inl e
  | inr opts1 =>
      (* if (!awsServiceOpts.region && region) awsServiceOpts.region = region *)
      let opts2 :=
        if negb (truthy (region opts1)) && truthy region_
        then mkOptions (credentials opts1) region_ (customUserAgent opts1) (endpoint opts1)
        else opts1 in
      (* if (!awsServiceOpts.customUserAgent && addUserAgent) ... *)
      let opts3 :=
        if negb (truthy (customUserAgent opts2)) && addUserAgent
        then mkOptions (credentials opts2) (region opts2) (Some (userAgent h)) (endpoint opts2)
        else opts2 in
      (* if (endpoint) awsServiceOpts.endpoint = endpoint *)
      let opts4 :=
        if truthy (endpointSetting h)
        then mkOptions (credentials opts3) (region opts3) (customUserAgent opts3) (endpointSetting h)
        else opts3 in
      inr (awsServiceFactory opts4)
  end.

(** The user agent the caller supplied, if any. *)
Definition suppliedUserAgent (o : option ServiceConfigurationOptions) : option string :=
  o ≫= customUserAgent.

(** A string is of the form [<ProductName>/<version> <platformName>/<platformVersion>]. *)
Definition userAgentForm (s : string) : Prop :=
  ∃ product ver platform platformVer : string,
    s = flat [product; "/"; ver; " "; platform; "/"; platformVer].

(** The reading of the user-agent rule that ignores the [addUserAgent] switch. *)
Definition userAgentSetWheneverNotSupplied : Prop :=
  ∀ (h : VsCode) (o : option ServiceConfigurationOptions)
    (r : option string) (a : option bool) (built : ServiceConfigurationOptions),
    createAndConfigureServiceClient h id o r a = inr built →
    suppliedUserAgent o = None →
    ∃ ua, customUserAgent built = Some ua ∧ userAgentForm ua.

Definition sampleHost : VsCode :=
  mkVsCode "Visual Studio Code" "1.52.0" "1.20.0" (Some "http://localhost:4566") (inr "creds").

End AwsClientBuilder.

(** ** JSON text of a string-to-string mapping

    [JSON.stringify] and [JSON.parse] are built into the JavaScript runtime.
    This module gives them for the values the argument builder hands over:
    objects all of whose properties are strings. *)

Module Json.

Definition quote : ascii := "034"%char.
Definition backslash : ascii := "092"%char.

Definition hexDigit (n : N) : ascii :=
  match n with
  | 0 => "0" | 1 => "1" | 2 => "2" | 3 => "3" | 4 => "4" | 5 => "5" | 6 => "6"
  | 7 => "7" | 8 => "8" | 9 => "9" | 10 => "a" | 11 => "b" | 12 => "c"
  | 13 => "d" | 14 => "e" | _ => "f"
  end%N%char.

(** QuoteJSONString, one code unit: the two-character escapes, [\u00XX]
    for the other control characters, the unit itself otherwise. *)
Definition escapeChar (c : ascii) : string :=
  match N_of_ascii c with
  | 8 => "\b" | 9 => "\t" | 10 => "\n" | 12 => "\f" | 13 => "\r"
  | 34 => String backslash (String quote EmptyString)
  | 92 => String backslash (String backslash EmptyString)
  | n => if (n <? 32)%N
         then String.append "\u00"
                (String (hexDigit (n / 16)) (String (hexDigit (n mod 16)) EmptyString))
         else String c EmptyString
  end%N.

(** The quoted form of [s], followed by [tail]. *)
Fixpoint escapeThen (s tail : string) : string :=
  match s with
  | EmptyString => String quote tail
  | String c rest => String.append (escapeChar c) (escapeThen rest tail)
  end.

Definition quoteString (s tail : string) : string := String quote (escapeThen s tail).

(** The members of an object and its closing brace. *)
Fixpoint encodeMembers (l : list (string * string)) : string :=
  match l with
  | [] => "}"
  | (k, v) :: rest =>
      quoteString k (String ":" (quoteString v
        (match rest with
         | [] => "}"
         | _ :: _ => String "," (encodeMembers rest)
         end)))
  end.

Definition stringifyPairs (l : list (string * string)) : string :=
  String "{" (encodeMembers l).

(** [JSON.stringify(m)]; the order of the members is that of the map's
    enumeration. *)
Definition stringify (m : gmap string string) : string :=
  stringifyPairs (map_to_list m).

Definition hexValue (c : ascii) : option N :=
  let n := N_of_ascii c in
  if ((48 <=? n) && (n <=? 57))%N then Some (n - 48)%N
  else if ((97 <=? n) && (n <=? 102))%N then Some (n - 87)%N
  else if ((65 <=? n) && (n <=? 70))%N then Some (n - 55)%N
  else None.

Definition hex4 (a b c d : ascii) : option N :=
  match hexValue a, hexValue b, hexValue c, hexValue d with
  | Some x, Some y, Some z, Some w => Some (((x * 16 + y) * 16 + z) * 16 + w)%N
  | _, _, _, _ => None
  end.

Definition simpleEscape (e : ascii) : option ascii :=
  match N_of_ascii e with
  | 34 => Some quote
  | 92 => Some backslash
  | 47 => Some "/"%char
  | 98 => Some "008"%char
  | 102 => Some "012"%char
  | 110 => Some "010"%char
  | 114 => Some "013"%char
  | 116 => Some "009"%char
  | _ => None
  end%N.

Definition prepend (c : ascii) (r : option (string * string)) : option (string * string) :=
  match r with
  | Some (s, rest) => Some (String c s, rest)
  | None => None
  end.

(** Reads a string literal whose opening quote has been consumed; yields the
    string and the remaining input. A code unit above 255 is refused. *)
Fixpoint parseStringBody (s : string) : option (string * string) :=
  match s with
  | EmptyString => None
  | String c rest =>
      if Ascii.eqb c quote then Some (EmptyString, rest)
      else if Ascii.eqb c backslash then
        match rest with
        | EmptyString => None
        | String e rest1 =>
            match simpleEscape e with
            | Some d => prepend d (parseStringBody rest1)
            | None =>
                if Ascii.eqb e "u" then
                  match rest1 with
                  | String h1 (String h2 (String h3 (String h4 rest2))) =>
                      match hex4 h1 h2 h3 h4 with
                      | Some n =>
                          if (n <? 256)%N
                          then prepend (ascii_of_N n) (parseStringBody rest2)
                          else None
                      | None => None
                      end
                  | _ => None
                  end
                else None
            end
        end
      else if (N_of_ascii c <? 32)%N then None
      else prepend c (parseStringBody rest)
  end.

(** Reads [fuel] or fewer members, each ["key":"value"], separated by commas
    and closed by a brace that ends the input. *)
Fixpoint parseMembers (fuel : nat) (s : string) : option (list (string * string)) :=
  match fuel with
  | O => None
  | S fuel' =>
      match s with
      | String q r1 =>
          if Ascii.eqb q quote then
            match parseStringBody r1 with
            | Some (k, String colon (String q2 r2)) =>
                if Ascii.eqb colon ":" && Ascii.eqb q2 quote then
                  match parseStringBody r2 with
                  | Some (v, String sep r3) =>
                      if Ascii.eqb sep "," then
                        match parseMembers fuel' r3 with
                        | Some l => Some ((k, v) :: l)
                        | None => None
                        end
                      else if Ascii.eqb sep "}" then
                        match r3 with
                        | EmptyString => Some [(k, v)]
                        | _ => None
                        end
                      else None
                  | _ => None
                  end
                else None
            | _ => None
            end
          else None
      | EmptyString => None
      end
  end.

Definition parsePairs (s : string) : option (list (string * string)) :=
  match s with
  | String open rest =>
      if Ascii.eqb open "{" then
        match rest with
        | String close EmptyString =>
            if Ascii.eqb close "}" then Some [] else None
        | _ => parseMembers (String.length rest) rest
        end
      else None
  | EmptyString => None
  end.

(** [JSON.parse(s)] for the compact text of an object of strings; of two
    members with one key the later one wins. *)
Definition parse (s : string) : option (gmap string string) :=
  match parsePairs s with
  | Some l => Some (list_to_map (reverse l))
  | None => None
  end.

End Json.

(** ** The [sam init] argument builder *)

Module SamCliInit.

Inductive PackageType : Type := Zip | Image.

(** One entry of a command line: the subcommand, a flag without a value, or
    a flag followed by its value. *)
Inductive CliArg : Type :=
  | Subcommand (name : string)
  | Switch (flag : string)
  | Valued (flag value : string).

Definition render (a : CliArg) : list string :=
  match a with
  | Subcommand n => [n]
  | Switch f => [f]
  | Valued f v => [f; v]
  end.

Definition flagOf (a : CliArg) : option string :=
  match a with
  | Subcommand _ => None
  | Switch f | Valued f _ => Some f
  end.

Definition valueOf (a : CliArg) : option string :=
  match a with
  | Valued _ v => Some v
  | _ => None
  end.

Definition flagsOf (l : list CliArg) : list string := omap flagOf l.
Definition valuesOf (l : list CliArg) : list string := omap valueOf l.

Definition hasFlag (f : string) (a : CliArg) : bool :=
  match flagOf a with
  | Some g => String.eqb f g
  | None => false
  end.

(** Omission rule: a flag whose value is absent is not emitted. *)
Definition optional (flag : string) (value : option string) : list CliArg :=
  match value with
  | Some v => [Valued flag v]
  | None => []
  end.

Section Builder.

(** Template identifiers and their CLI parameter
    ([getSamCliTemplateParameter] of [lambda/models/samTemplates]). *)
Variable Template : Type.
Variable getSamCliTemplateParameter : Template → string.

Record InitRequest : Type := mkInitRequest {
  projectName : string;
  targetDirectory : string;
  runtime : option string;
  packageType : PackageType;
  template : option Template;
  dependencyManager : string;
  extraTemplateContext : option (gmap string string);
  baseImage : option string
}.

(** Modelled from the spec: the argument builder of [runSamCliInit]
    ([shared/sam/cli/samCliInit.ts] is not among the sources). The
    subcommand, [--name], [--no-interactive], [--dependency-manager], then
    by package type [--base-image] (Image) or [--runtime] and
    [--app-template] (Zip), then [--extra-context] with the mapping as one
    JSON text. The target directory is the working directory of the
    process, not an argument. *)
Definition initArgs (r : InitRequest) : list CliArg :=
  [ Subcommand "init";
    Valued "--name" (projectName r);
    Switch "--no-interactive";
    Valued "--dependency-manager" (dependencyManager r) ]
  ++ match packageType r with
     | Image => optional "--base-image" (baseImage r)
     | Zip =>
         optional "--runtime" (runtime r)
         ++ optional "--app-template" (getSamCliTemplateParameter <$> template r)
     end
  ++ optional "--extra-context" (Json.stringify <$> extraTemplateContext r).

(** Modelled from the spec: [buildArgs], the ordered sequence of strings
    handed to the process invoker. *)
Definition buildArgs (r : InitRequest) : list string :=
  List.concat (render <$> initArgs r).

End Builder.

Arguments mkInitRequest {Template}.
Arguments projectName {Template}.
Arguments targetDirectory {Template}.
Arguments runtime {Template}.
Arguments packageType {Template}.
Arguments template {Template}.
Arguments dependencyManager {Template}.
Arguments extraTemplateContext {Template}.
Arguments baseImage {Template}.
Arguments initArgs {Template}.
Arguments buildArgs {Template}.

(** The two templates of the test-suite. *)
Inductive SamTemplate : Type := helloWorldTemplate | eventBridgeStarterAppTemplate.

(** Sample values of [getSamCliTemplateParameter]. *)
Definition samTemplateParameter (t : SamTemplate) : string :=
  match t with
  | helloWorldTemplate => "hello-world"
  | eventBridgeStarterAppTemplate => "eventBridge-schema-app"
  end.

Definition sampleSamInitArgs : InitRequest SamTemplate :=
  mkInitRequest "qwerty" "/some/path/to/code.js" (Some "nodejs10.x") Zip
                (Some helloWorldTemplate) "npm" None None.

Definition extraContent : gmap string string :=
  list_to_map
    [ ("AWS_Schema_registry", "testRegistry"); ("AWS_Schema_name", "testSchema");
      ("AWS_Schema_root", "test"); ("AWS_Schema_source", "AWS");
      ("AWS_Schema_detail_type", "ec2"); ("user_agent", "testAgent") ].

Definition samInitArgsWithExtraContent : InitRequest SamTemplate :=
  mkInitRequest "qwerty" "/some/path/to/code.js" (Some "python3.6") Zip
                (Some eventBridgeStarterAppTemplate) "npm" (Some extraContent) None.

Definition sampleWithoutTemplate : InitRequest SamTemplate :=
  mkInitRequest "qwerty" "/some/path/to/code.js" (Some "nodejs10.x") Zip
                None "npm" None None.

End SamCliInit.

(** ** The exit-code validator *)

Module ExitCode.

Record ProcessResult : Type := mkProcessResult {
  exitCode : option Z;
  launchError : option Error;
  stdout : string;
  stderr : string
}.

(** One structured entry of the log. *)
Record DiagnosticRecord : Type := mkDiagnostic {
  loggedExpected : Z;
  loggedActual : option Z;
  loggedStdout : string;
  loggedStderr : string;
  loggedMessage : option string
}.

Definition Log : Type := list DiagnosticRecord.

Definition writeLog (d : DiagnosticRecord) : M Log unit := modify (λ l, l ++ [d]).

Section Validator.

(** How the logger shortens captured output; the spec leaves the bound open. *)
Variable truncate : string → string.

Definition codeMatches (actual : option Z) (expected : Z) : bool :=
  match actual with
  | Some c => Z.eqb c expected
  | None => false
  end.

(** Modelled from the spec: the mismatch test of the validator
    ([shared/sam/cli/samCliInvokerUtils.ts] is not among the sources):
    the exit code is not the expected one, a launch error counting as a
    mismatch by itself. *)
Definition isMismatch (r : ProcessResult) (expectedCode : Z) : bool :=
  match launchError r with
  | Some _ => true
  | None => negb (codeMatches (exitCode r) expectedCode)
  end.

Definition diagnosticOf (r : ProcessResult) (expectedCode : Z) : DiagnosticRecord :=
  mkDiagnostic expectedCode (exitCode r) (truncate (stdout r)) (truncate (stderr r))
               (errorMessage <$> launchError r).

Definition unexpectedExitCode (r : ProcessResult) (expectedCode : Z) : Error :=
  UnexpectedExitCodeError expectedCode (exitCode r) (stdout r) (stderr r)
                          (errorMessage <$> launchError r).

(** Modelled from the spec: [checkExit(result, expectedCode)], the
    validator [logAndThrowIfUnexpectedExitCode] whose source is not among
    the files. On a mismatch it writes the diagnostic record and then
    raises; otherwise it returns. *)
Definition checkExit (r : ProcessResult) (expectedCode : Z) : M Log unit :=
  if isMismatch r expectedCode
  then writeLog (diagnosticOf r expectedCode);;
       throw (unexpectedExitCode r expectedCode)
  else ret tt.

End Validator.

(** The two results of the test-suite. *)
Definition expectedResult : ProcessResult := mkProcessResult (Some 123) None EmptyString EmptyString.
Definition badResult : ProcessResult :=
  mkProcessResult (Some 123) (Some (GenericError "bad result")) "stdout text" "stderr text".

End ExitCode.

(** ** The extension host: objects, events, collaborators *)

Module Host.

(** Identity of a JavaScript object. *)
Definition loc : Type := positive.

(** Modelled from the spec: the invoke-target variant of a debug
    configuration ([shared/sam/debugger/awsSamDebugConfiguration.ts] is not
    among the sources); [isTemplateTargetProperties] tests for the first
    alternative. *)
Inductive InvokeTarget : Type :=
  | TemplateTarget (templatePath logicalId : string)
  | CodeTarget (projectRoot lambdaHandler : string).

Definition isTemplateTargetProperties (t : InvokeTarget) : bool :=
  match t with
  | TemplateTarget _ _ => true
  | CodeTarget _ _ => false
  end.

(** [(t as TemplateTargetProperties).templatePath] *)
Definition templatePathOf (t : InvokeTarget) : option string :=
  match t with
  | TemplateTarget templatePath _ => Some templatePath
  | CodeTarget _ _ => None
  end.

(** The object under [configuration.lambda]. *)
Record LambdaHolder : Type := mkHolder {
  runtime : option string;
  timeoutSec : option Z;
  memoryMb : option Z
}.

(** The object literal [{}]. *)
Definition emptyHolder : LambdaHolder := mkHolder None None None.

Definition setRuntime (r : string) (h : LambdaHolder) : LambdaHolder :=
  mkHolder (Some r) (timeoutSec h) (memoryMb h).

Record DebugConfiguration : Type := mkConfig {
  type_ : string;
  name : string;
  request : string;
  invokeTarget : InvokeTarget;
  lambda : option loc
}.

Definition setLambda (h : loc) (c : DebugConfiguration) : DebugConfiguration :=
  mkConfig (type_ c) (name c) (request c) (invokeTarget c) (Some h).

(** The heap: configuration objects and the objects they hold under
    [lambda]. Arrays hold references, so an object reached through two
    arrays is one object. *)
Record Store : Type := mkStore {
  configs : gmap loc DebugConfiguration;
  holders : gmap loc LambdaHolder
}.

Inductive PackageType : Type := Zip | Image.
Inductive Result : Type := Succeeded | Failed | Cancelled.
Inductive CreateReason : Type := unknown | userCancelled | fileNotFound | complete | error.

(** The argument of [recordSamInit]. *)
Record SamInitTelemetry : Type := mkTelemetry {
  lambdaPackageType : option PackageType;
  result : Result;
  reason : CreateReason;
  telemetryRuntime : option string;
  version : option string
}.

(** [SamInitState] of [ActivationReloadState]. *)
Record SamInitState : Type := mkSamInitState {
  path : option string;
  stateRuntime : option string;
  isImage : bool
}.

(** What a run does to its surroundings, in order. *)
Inductive Event : Type :=
  | AddDebugConfigurations (configurations : list loc)
  | ErrorMessageShown (key : string)
  | WarningMessageShown (key : string)
  | InformationMessageShown (key : string)
  | OutputChannelShown
  | LogError (message : string)
  | LogInfo (message : string)
  | RecordSamInit (event : SamInitTelemetry).

Record World : Type := mkWorld {
  store : Store;
  samInitState : option SamInitState;
  trace : list Event
}.

Definition appendEvent (e : Event) : M World unit :=
  modify (λ w, mkWorld (store w) (samInitState w) (trace w ++ [e])).

Definition updateStore (f : Store → Store) : M World unit :=
  modify (λ w, mkWorld (f (store w)) (samInitState w) (trace w)).

Definition writeSamInitState (s : option SamInitState) : M World unit :=
  modify (λ w, mkWorld (store w) s (trace w)).

End Host.

(** ** [addInitialLaunchConfiguration] *)

Module Reconciler.
Import Host.

(** The collaborators of the reconciler: [pathutils.areEqual], the outcome
    of [SamDebugConfigProvider.provideDebugConfigurations(folder)] and the
    outcome of [LaunchConfiguration.addDebugConfigurations] ([None] when the
    promise resolves). *)
Record Collaborators : Type := mkCollaborators {
  areEqual : string → string → string → bool;
  provideDebugConfigurations : Error + option (list loc);
  addDebugConfigurations : Store → list loc → option Error
}.

(** The callback of [configurations.filter]:
    [isTemplateTargetProperties(config.invokeTarget) &&
     pathutils.areEqual(folder.uri.fsPath, config.invokeTarget.templatePath, targetUri.fsPath)]. *)
Definition targetsTemplate (k : Collaborators) (folderPath targetPath : string)
    (st : Store) (c : loc) : bool :=
  match configs st !! c with
  | Some config =>
      isTemplateTargetProperties (invokeTarget config) &&
      match templatePathOf (invokeTarget config) with
      | Some templatePath => areEqual k folderPath templatePath targetPath
      | None => false
      end
  | None => false
  end.

(** The callback of [filtered.forEach]. *)
Definition stampRuntime (runtime_ : string) (st : Store) (c : loc) : Store :=
  match configs st !! c with
  | None => st
  | Some configuration =>
      (* if (!configuration.lambda) configuration.lambda = {} *)
      let '(h, st1) :=
        match lambda configuration with
        | Some h => (h, st)
        | None =>
            let h := fresh (dom (holders st)) in
            (h, mkStore (<[c := setLambda h configuration]> (configs st))
                        (<[h := emptyHolder]> (holders st)))
        end in
      (* configuration.lambda.runtime = runtime *)
      mkStore (configs st1) (alter (setRuntime runtime_) h (holders st1))
  end.

Definition stampAll (runtime_ : option string) (filtered : list loc) (st : Store) : Store :=
  match runtime_ with
  | Some r => foldl (stampRuntime r) st filtered
  | None => st
  end.

Definition persist (k : Collaborators) (filtered : list loc) : M World unit :=
  appendEvent (AddDebugConfigurations filtered);;
  st ← gets store;
  match addDebugConfigurations k st filtered with
  | Some e => throw e
  | None => ret tt
  end.

Definition addInitialLaunchConfiguration (k : Collaborators)
    (folderPath targetPath : string) (runtime_ : option string)
    : M World (option (list loc)) :=
  configurations ← liftResult (provideDebugConfigurations k);
  match configurations with
  | Some configurations =>
      st ← gets store;
      let filtered := List.filter (targetsTemplate k folderPath targetPath st) configurations in
      updateStore (stampAll runtime_ filtered);;
      persist k filtered;;
      ret (Some filtered)
  | None => ret None
  end.

(** Every candidate is an object of the heap, and so is every object a
    configuration holds under [lambda]. *)
Definition wellFormed (st : Store) (candidates : list loc) : Prop :=
  (∀ c, c ∈ candidates → is_Some (configs st !! c)) ∧
  (∀ c config h, configs st !! c = Some config → lambda config = Some h →
                 is_Some (holders st !! h)).

(** Modelled from the spec: [pathutils.areEqual]
    ([shared/utilities/pathUtils.ts] is not among the sources). Both paths
    are resolved against the workspace folder, the placeholder
    [${workspaceFolder}] standing for it, and compared. *)
Definition resolveAgainst (root p : string) : string :=
  let placeholder := "${workspaceFolder}" in
  if String.prefix placeholder p
  then String.append root (String.substring (String.length placeholder)
                                            (String.length p - String.length placeholder) p)
  else if String.prefix "/" p then p
  else String.append root (String.append "/" p).

Definition pathsEqual (root p1 p2 : string) : bool :=
  String.eqb (resolveAgainst root p1) (resolveAgainst root p2).

(** The configuration of the test-suite, and a second one that targets code. *)
Definition sampleStore : Store :=
  mkStore
    (<[1%positive := mkConfig "aws-sam" "name" "direct-invoke"
                       (TemplateTarget "${workspaceFolder}/test.yaml" "resource") None]>
     (<[2%positive := mkConfig "aws-sam" "code" "direct-invoke"
                       (CodeTarget "/w" "app.handler") (Some 5%positive)]> ∅))
    (<[5%positive := mkHolder (Some "nodejs12.x") None (Some 128)]> ∅).

Definition sampleWorld : World := mkWorld sampleStore None [].

Definition sampleCollaborators (persistFails : bool) : Collaborators :=
  mkCollaborators pathsEqual (inr (Some [1%positive; 2%positive]))
    (λ _ _, if persistFails then Some (GenericError "cannot write launch.json") else None).

Definition noListCollaborators : Collaborators :=
  mkCollaborators pathsEqual (inr None) (λ _ _, None).

(** How one configuration object changes: not at all, or by receiving a
    holder that was not on the heap. *)
Definition evolves (st : Store) (config config' : DebugConfiguration) : Prop :=
  config' = config ∨
  (lambda config = None ∧ ∃ h, holders st !! h = None ∧ config' = setLambda h config).

(** Configuration [c] holds an object whose runtime is [r]. *)
Definition hasRuntime (r : string) (st : Store) (c : loc) : Prop :=
  ∃ config h x, configs st !! c = Some config ∧ lambda config = Some h ∧
                holders st !! h = Some x ∧ runtime x = Some r.

(** The reading of the persist rule under which the list comes back even
    when persisting fails. *)
Definition returnsListWhetherPersistFailsOrNot : Prop :=
  ∀ (k : Collaborators) (folderPath targetPath : string) (runtime_ : option string)
    (candidates : list loc) (w : World),
    provideDebugConfigurations k = inr (Some candidates) →
    ∃ filtered,
      (addInitialLaunchConfiguration k folderPath targetPath runtime_ w).2
      = Normal (Some filtered).

End Reconciler.

(** ** The creation workflow: [createNewSamApplication], [resumeCreateNewSamApp] *)

Module Workflow.
Import Host.

Definition SamTemplate : Type := SamCliInit.SamTemplate.

(** [CreateNewSamAppWizardResponse] *)
Record WizardResponse : Type := mkWizardResponse {
  configName : string;
  location : string;
  configRuntime : string;
  configPackageType : PackageType;
  configTemplate : SamTemplate;
  region : option string;
  schemaName : option string;
  registryName : option string
}.

(** [SamCliInitArgs] *)
Record SamCliInitArgs : Type := mkInitArgs {
  argName : string;
  argLocation : string;
  argDependencyManager : string;
  extraContent : option (gmap string string);
  baseImage : option string;
  argRuntime : option string;
  argTemplate : option SamTemplate
}.

Record SchemaTemplateParameters : Type := mkSchemaParameters {
  schemaVersion : string;
  templateExtraContent : gmap string string
}.

(** The outcome of every call that leaves the module and can fail, fixed for
    one run, and Node's [path.resolve], a function of the path segments that
    is not modelled further. Calls to the logger, the output channel, the
    notification surface, the telemetry recorder and the activation state are
    effects on the world that complete. *)
Record Env : Type := mkEnv {
  detectValidSamCli : Error + unit;
  getCredentials : Error + string;
  schemasRegions : Error + list string;
  getSamCliVersion : Error + string;
  wizardRun : Error + option WizardResponse;
  getDependencyManager : string → Error + string;
  createSchemaClient : option string → Error + unit;
  buildSchemaTemplateParameters : Error + SchemaTemplateParameters;
  runSamCliInit : SamCliInitArgs → Error + unit;
  fileExists : string → Error + bool;
  uriFile : option string → Error + string;
  downloadCode : Error + unit;
  addFolderToWorkspace : Error + unit;
  templateRegistered : string → Error + bool;
  getWorkspaceFolder : string → option string;
  collaborators : Reconciler.Collaborators;
  openReadme : Error + unit;
  showTextDocument : Error + unit;
  pathResolve : list string → string
}.

(** The [let] variables that the [finally] block reads. *)
Record Frame : Type := mkFrame {
  createResult : Result;
  createReason : CreateReason;
  packageTypeVar : option PackageType;
  createRuntime : option string;
  samVersion : option string
}.

Record Run : Type := mkRun { world : World; frame : Frame }.

Definition liftWorld {A} (m : M World A) : M Run A :=
  λ s, let '(w, c) := m (world s) in (mkRun w (frame s), c).

Definition emit (e : Event) : M Run unit := liftWorld (appendEvent e).

Definition setFrame (f : Frame → Frame) : M Run unit :=
  modify (λ s, mkRun (world s) (f (frame s))).

Definition setResult (r : Result) : M Run unit :=
  setFrame (λ f, mkFrame r (createReason f) (packageTypeVar f) (createRuntime f) (samVersion f)).
Definition setReason (r : CreateReason) : M Run unit :=
  setFrame (λ f, mkFrame (createResult f) r (packageTypeVar f) (createRuntime f) (samVersion f)).
Definition setPackageType (p : PackageType) : M Run unit :=
  setFrame (λ f, mkFrame (createResult f) (createReason f) (Some p) (createRuntime f) (samVersion f)).
Definition setCreateRuntime (r : string) : M Run unit :=
  setFrame (λ f, mkFrame (createResult f) (createReason f) (packageTypeVar f) (Some r) (samVersion f)).
Definition setSamVersion (v : string) : M Run unit :=
  setFrame (λ f, mkFrame (createResult f) (createReason f) (packageTypeVar f) (createRuntime f) (Some v)).

(** [activationReloadState.setSamInitState] / [clearSamInitState] *)
Definition setSamInitState (s : SamInitState) : M Run unit :=
  liftWorld (writeSamInitState (Some s)).
Definition clearSamInitState : M Run unit := liftWorld (writeSamInitState None).

(** The [path.resolve] of the sample surroundings, and of them only: the
    segments joined by [/], which is Node's answer where the first segment is
    an absolute, normalised path and the others are plain names, as in every
    sample run. *)
Definition sampleResolve (parts : list string) : string := String.concat "/" parts.

Definition isEventBridge (t : SamTemplate) : bool :=
  match t with
  | SamCliInit.eventBridgeStarterAppTemplate => true
  | SamCliInit.helloWorldTemplate => false
  end.

Definition isImagePackage (p : PackageType) : bool :=
  match p with Image => true | Zip => false end.

Definition when (b : bool) (m : M Run unit) : M Run unit := if b then m else ret tt.

Section Run.
Variable env : Env.

Definition getMainUri (config : WizardResponse) : M Run (option string) :=
  let cfnTemplatePath :=
    pathResolve env [location config; configName config; "README.md"] in
  found ← liftResult (fileExists env cfnTemplatePath);
  if (found : bool)
  then uri ← liftResult (uriFile env (Some cfnTemplatePath)); ret (Some uri)
  else emit (WarningMessageShown "AWS.samcli.initWizard.source.error.notFound");; ret None.

(** The call [addInitialLaunchConfiguration(extContext, folder, uri, runtime)];
    the default argument [new LaunchConfiguration(folder.uri)] fails on a
    missing folder. *)
Definition callReconciler (folder : option string) (uri : string)
    (runtime_ : option string) : M Run (option (list loc)) :=
  match folder with
  | None => throw (GenericError "TypeError: Cannot read property 'uri' of undefined")
  | Some folderPath =>
      liftWorld (Reconciler.addInitialLaunchConfiguration (collaborators env)
                   folderPath uri runtime_)
  end.

Definition recordSamInit (telemetry : Frame → SamInitTelemetry) : M Run unit :=
  f ← gets frame; emit (RecordSamInit (telemetry f)).

Definition createBody : M Run unit :=
  liftResult (detectValidSamCli env);;
  _ ← liftResult (getCredentials env);
  _ ← liftResult (schemasRegions env);
  v ← liftResult (getSamCliVersion env);
  setSamVersion v;;
  config ← liftResult (wizardRun env);
  match config with
  | None => setResult Cancelled;; setReason userCancelled;; returnNow
  | Some config =>
      setCreateRuntime (configRuntime config);;
      dependencyManager ← liftResult (getDependencyManager env (configRuntime config));
      let initArguments := mkInitArgs (configName config) (location config)
                                      dependencyManager None None None None in
      initArguments ←
        (if isEventBridge (configTemplate config)
         then liftResult (createSchemaClient env (region config));;
              p ← liftResult (buildSchemaTemplateParameters env);
              ret (mkInitArgs (argName initArguments) (argLocation initArguments)
                              (argDependencyManager initArguments)
                              (Some (templateExtraContent p)) None None None)
         else ret initArguments);
      initArguments ←
        (match configPackageType config with
         | Image =>
             setPackageType Image;;
             ret (mkInitArgs (argName initArguments) (argLocation initArguments)
                    (argDependencyManager initArguments) (extraContent initArguments)
                    (Some (flat ["amazon/"; configRuntime config; "-base"]))
                    (argRuntime initArguments) (argTemplate initArguments))
         | Zip =>
             setPackageType Zip;;
             ret (mkInitArgs (argName initArguments) (argLocation initArguments)
                    (argDependencyManager initArguments) (extraContent initArguments)
                    (baseImage initArguments)
                    (Some (configRuntime config)) (Some (configTemplate config)))
         end);
      liftResult (runSamCliInit env initArguments);;
      uri ← getMainUri config;
      match uri with
      | None => setReason fileNotFound;; returnNow
      | Some uri =>
          when (isEventBridge (configTemplate config))
               (emit (LogInfo "AWS.message.info.schemas.downloadCodeBindings.start");;
                liftResult (downloadCode env);;
                emit (InformationMessageShown
                        "AWS.message.info.schemas.downloadCodeBindings.finished"));;
          setSamInitState (mkSamInitState (Some uri) (Some (configRuntime config))
                             (isImagePackage (configPackageType config)));;
          liftResult (addFolderToWorkspace env);;
          isTemplateRegistered ← liftResult (templateRegistered env uri);
          (if (isTemplateRegistered : bool)
           then newLaunchConfigs ← callReconciler (getWorkspaceFolder env uri) uri
                                                  (Some (configRuntime config));
                when (match newLaunchConfigs with
                      | Some (_ :: _) => true
                      | _ => false
                      end)
                     (emit (InformationMessageShown "AWS.samcli.initWizard.completionMessage"));;
                setReason complete
           else setResult Failed;;
                setReason fileNotFound;;
                emit (WarningMessageShown "AWS.samcli.initWizard.launchConfigFail"));;
          clearSamInitState;;
          liftResult (openReadme env)
      end
  end.

Definition createHandler (err : Error) : M Run unit :=
  setResult Failed;;
  setReason error;;
  emit OutputChannelShown;;
  emit (LogError "AWS.samcli.initWizard.general.error");;
  emit (LogError (String.append "Error creating new SAM Application: " (errorMessage err)));;
  clearSamInitState.

Definition createTelemetry (f : Frame) : SamInitTelemetry :=
  mkTelemetry (packageTypeVar f) (createResult f) (createReason f)
              (createRuntime f) (samVersion f).

Definition createNewSamApplication : M Run unit :=
  setFrame (λ _, mkFrame Succeeded unknown None None None);;
  functionBody
    (tryCatchFinally createBody createHandler (recordSamInit createTelemetry)).

Definition resumeBody (state : option SamInitState) : M Run unit :=
  uri ← liftResult (uriFile env (state ≫= path));
  match getWorkspaceFolder env uri with
  | None =>
      setResult Failed;;
      setReason error;;
      emit (ErrorMessageShown "AWS.samcli.initWizard.source.error.notInWorkspace");;
      returnNow
  | Some folder =>
      v ← liftResult (getSamCliVersion env);
      setSamVersion v;;
      callReconciler (Some folder) uri
        (match state with
         | Some s => if isImage s then stateRuntime s else None
         | None => None
         end);;
      liftResult (showTextDocument env)
  end.

Definition resumeHandler (err : Error) : M Run unit :=
  setResult Failed;;
  setReason error;;
  emit OutputChannelShown;;
  emit (LogError "AWS.samcli.initWizard.resume.error");;
  emit (LogError (String.append "Error resuming new SAM Application: " (errorMessage err))).

Definition resumeTelemetry (state : option SamInitState) (f : Frame) : SamInitTelemetry :=
  mkTelemetry (Some (match state with
                     | Some s => if isImage s then Image else Zip
                     | None => Zip
                     end))
              (createResult f) (createReason f)
              (state ≫= stateRuntime) (samVersion f).

Definition resumeCreateNewSamApp : M Run unit :=
  setFrame (λ _, mkFrame Succeeded complete None None None);;
  state ← gets (λ s, samInitState (world s));
  functionBody
    (tryCatchFinally (resumeBody state) resumeHandler
       (clearSamInitState;; recordSamInit (resumeTelemetry state))).

End Run.

(** The telemetry events of a trace, in order. *)
Definition telemetryOf (tr : list Event) : list SamInitTelemetry :=
  omap (λ e, match e with RecordSamInit t => Some t | _ => None end) tr.

(** [m] extends the trace by events none of which is a telemetry event. *)
Definition quiet {A} (m : M Run A) : Prop :=
  ∀ s, ∃ evs, trace (world (m s).1) = trace (world s) ++ evs ∧ telemetryOf evs = [].

(** The finalizer completes normally and adds the one telemetry event built
    from the variables of the frame, after events that are not telemetry. *)
Definition recordsOnce (finalizer : M Run unit) (telemetry : Frame → SamInitTelemetry) : Prop :=
  ∀ s, ∃ s', finalizer s = (s', Normal tt) ∧ frame s' = frame s ∧
             trace (world s') = trace (world s) ++ [RecordSamInit (telemetry (frame s))].

(** Sample runs. *)

Definition sampleConfig : WizardResponse :=
  mkWizardResponse "qwerty" "/w" "nodejs12.x" Zip SamCliInit.helloWorldTemplate
                   None None None.

Definition sampleEnv : Env :=
  mkEnv (inr tt) (inr "credentials") (inr ["us-west-2"]) (inr "1.0.0")
        (inr (Some sampleConfig)) (λ _, inr "npm") (λ _, inr tt)
        (inr (mkSchemaParameters "1" ∅)) (λ _, inr tt) (λ _, inr true)
        (λ p, match p with
              | Some p => inr p
              | None => inl (GenericError "TypeError: path must be a string")
              end)
        (inr tt) (inr tt) (λ _, inr true) (λ _, Some "/w")
        (Reconciler.sampleCollaborators false) (inr tt) (inr tt) sampleResolve.

Definition withWizard (r : Error + option WizardResponse) (e : Env) : Env :=
  mkEnv (detectValidSamCli e) (getCredentials e) (schemasRegions e) (getSamCliVersion e)
        r (getDependencyManager e) (createSchemaClient e)
        (buildSchemaTemplateParameters e) (runSamCliInit e) (fileExists e) (uriFile e)
        (downloadCode e) (addFolderToWorkspace e) (templateRegistered e)
        (getWorkspaceFolder e) (collaborators e) (openReadme e) (showTextDocument e)
        (pathResolve e).

Definition withInit (r : Error + unit) (e : Env) : Env :=
  mkEnv (detectValidSamCli e) (getCredentials e) (schemasRegions e) (getSamCliVersion e)
        (wizardRun e) (getDependencyManager e) (createSchemaClient e)
        (buildSchemaTemplateParameters e) (λ _, r) (fileExists e) (uriFile e)
        (downloadCode e) (addFolderToWorkspace e) (templateRegistered e)
        (getWorkspaceFolder e) (collaborators e) (openReadme e) (showTextDocument e)
        (pathResolve e).

Definition initialRun : Run :=
  mkRun Reconciler.sampleWorld (mkFrame Succeeded unknown None None None).

Definition telemetryAfter (m : M Run unit) : list SamInitTelemetry :=
  telemetryOf (trace (world (m initialRun).1)).

End Workflow.

(** ** Outcomes of a run: what to read off the final state and the trace *)

Module Outcomes.
Import Host Workflow.

(** The pairs of result and reason that a run of [createNewSamApplication]
    can report. *)
Definition outcomeAllowed (res : Result) (rsn : CreateReason) : bool :=
  match res, rsn with
  | Succeeded, complete | Succeeded, fileNotFound | Failed, fileNotFound
  | Failed, error | Cancelled, userCancelled => true
  | _, _ => false
  end.

(** The events a run has added to the trace it started from. *)
Definition addedEvents (before after : list Event) : list Event :=
  drop (List.length before) after.

(** The lists handed to [addDebugConfigurations], in order. *)
Definition persistCalls (evs : list Event) : list (list loc) :=
  omap (λ e, match e with AddDebugConfigurations l => Some l | _ => None end) evs.

(** The message keys of the notifications shown, in order. *)
Definition notificationKeys (evs : list Event) : list string :=
  omap (λ e, match e with
             | ErrorMessageShown k | WarningMessageShown k | InformationMessageShown k => Some k
             | _ => None
             end) evs.

(** What the [catch] blocks do to report an error: the output channel and
    the two log entries. *)
Definition isErrorReport (e : Event) : bool :=
  match e with
  | OutputChannelShown | LogError _ => true
  | _ => false
  end.

(** The four steps before the wizard all succeed. *)
Definition reachesWizard (env : Env) : bool :=
  match detectValidSamCli env, getCredentials env, schemasRegions env, getSamCliVersion env with
  | inr _, inr _, inr _, inr _ => true
  | _, _, _, _ => false
  end.

(** The runtime [resumeCreateNewSamApp] passes on:
    [samInitState?.isImage ? samInitState?.runtime : undefined]. *)
Definition resumeRuntime (state : option SamInitState) : option string :=
  match state with
  | Some st => if isImage st then stateRuntime st else None
  | None => None
  end.

(** Sample surroundings, by what the validator, the wizard, the README check,
    the template registry and the workspace answer. *)
Definition sampleEnvWith (detect : Error + unit) (wizard : Error + option WizardResponse)
    (readme registered : bool) (folder : option string) : Env :=
  mkEnv detect (inr "credentials") (inr ["us-west-2"]) (inr "1.0.0")
        wizard (λ _, inr "npm") (λ _, inr tt)
        (inr (mkSchemaParameters "1" ∅)) (λ _, inr tt) (λ _, inr readme)
        (λ p, match p with
              | Some p => inr p
              | None => inl (GenericError "TypeError: path must be a string")
              end)
        (inr tt) (inr tt) (λ _, inr registered) (λ _, folder)
        (Reconciler.sampleCollaborators false) (inr tt) (inr tt) sampleResolve.

Definition resumingRun (image : bool) : Run :=
  mkRun (mkWorld Reconciler.sampleStore
           (Some (mkSamInitState (Some "/w/test.yaml") (Some "nodejs12.x") image)) [])
        (mkFrame Succeeded unknown None None None).

(** A heap whose one configuration already holds settings under [lambda]. *)
Definition tunedStore : Store :=
  mkStore
    (<[1%positive := mkConfig "aws-sam" "name" "direct-invoke"
                       (TemplateTarget "${workspaceFolder}/test.yaml" "resource")
                       (Some 5%positive)]> ∅)
    (<[5%positive := mkHolder (Some "nodejs12.x") (Some 30) (Some 128)]> ∅).

(** The surroundings with another [runSamCliInit]. *)
Definition withRunSamCliInit (g : SamCliInitArgs → Error + unit) (e : Env) : Env :=
  mkEnv (detectValidSamCli e) (getCredentials e) (schemasRegions e) (getSamCliVersion e)
        (wizardRun e) (getDependencyManager e) (createSchemaClient e)
        (buildSchemaTemplateParameters e) g (fileExists e) (uriFile e)
        (downloadCode e) (addFolderToWorkspace e) (templateRegistered e)
        (getWorkspaceFolder e) (collaborators e) (openReadme e) (showTextDocument e)
        (pathResolve e).

Definition sameTemplate (a b : SamTemplate) : bool :=
  match a, b with
  | SamCliInit.helloWorldTemplate, SamCliInit.helloWorldTemplate
  | SamCliInit.eventBridgeStarterAppTemplate, SamCliInit.eventBridgeStarterAppTemplate => true
  | _, _ => false
  end.

(** Init arguments as [createNewSamApplication] derives them from the
    wizard's answer: the name and location of the answer; for an image the
    base image [amazon/<runtime>-base] and neither runtime nor template, for
    Zip the runtime and the template and no base image; extra content exactly
    for the EventBridge starter template. *)
Definition initArgumentsShaped (config : WizardResponse) (a : SamCliInitArgs) : bool :=
  String.eqb (argName a) (configName config) &&
  String.eqb (argLocation a) (location config) &&
  match configPackageType config, baseImage a, argRuntime a, argTemplate a with
  | Image, Some image, None, None =>
      String.eqb image (flat ["amazon/"; configRuntime config; "-base"])
  | Zip, None, Some r, Some t =>
      String.eqb r (configRuntime config) && sameTemplate t (configTemplate config)
  | _, _, _, _ => false
  end &&
  match extraContent a with
  | Some _ => isEventBridge (configTemplate config)
  | None => negb (isEventBridge (configTemplate config))
  end.

(** A [runSamCliInit] that accepts the arguments shaped for [config] only. *)
Definition acceptsShaped (config : WizardResponse) (a : SamCliInitArgs) : Error + unit :=
  if initArgumentsShaped config a then inr tt
  else inl (GenericError "unexpected arguments").

(** A heap whose one configuration targets the file that
    [createNewSamApplication] hands to the reconciler for [sampleConfig]. *)
Definition readmeStore : Store :=
  mkStore
    (<[1%positive := mkConfig "aws-sam" "name" "direct-invoke"
                       (TemplateTarget "${workspaceFolder}/qwerty/README.md" "resource")
                       None]> ∅)
    ∅.

Definition readmeEnv : Env :=
  mkEnv (inr tt) (inr "credentials") (inr ["us-west-2"]) (inr "1.0.0")
        (inr (Some sampleConfig)) (λ _, inr "npm") (λ _, inr tt)
        (inr (mkSchemaParameters "1" ∅)) (λ _, inr tt) (λ _, inr true)
        (λ p, match p with
              | Some p => inr p
              | None => inl (GenericError "TypeError: path must be a string")
              end)
        (inr tt) (inr tt) (λ _, inr true) (λ _, Some "/w")
        (Reconciler.mkCollaborators Reconciler.pathsEqual (inr (Some [1%positive]))
                                    (λ _ _, None))
        (inr tt) (inr tt) sampleResolve.

Definition readmeRun : Run :=
  mkRun (mkWorld readmeStore None []) (mkFrame Succeeded unknown None None None).

End Outcomes.

(** * Part II: the theorems *)

(** ** Theorems: [DefaultAWSClientBuilder] *)

Module AwsClientBuilderFacts.
Import AwsClientBuilder.

Lemma replaceWhiteSpace_clean (s : string) (c : ascii) :
  In c (list_ascii_of_string (replaceWhiteSpace s)) → isWhiteSpace c = false.
Proof.
  induction s as [|d s IH]; simpl; [tauto|].
  intros [<-|H]; [|auto].
  destruct (isWhiteSpace d) eqn:E; [reflexivity|exact E].
Qed.

Lemma userAgent_form (h : VsCode) : userAgentForm (userAgent h).
Proof. unfold userAgentForm, userAgent. eauto 6. Qed.

Example userAgent_sample :
  userAgent sampleHost = "AWS-Toolkit-For-VSCode/1.20.0 Visual-Studio-Code/1.52.0".
Proof. reflexivity. Qed.

(** C9 (as stated, refuted): with [addUserAgent = false] and no user agent
    supplied, the client is built without any custom user agent. *)
Lemma user_agent_gate_counterexample : ¬ userAgentSetWheneverNotSupplied.
Proof.
  intros H.
  destruct (H sampleHost None None (Some false)
              (mkOptions (Some "creds") None None (Some "http://localhost:4566"))
              eq_refl eq_refl) as (ua & Hua & _).
  discriminate Hua.
Qed.

(** C9 (amended): whenever the client is built, its options carry the user
    agent [AWS-Toolkit-For-VSCode/<pluginVersion> <appName with white space
    replaced by '-'>/<vscode version>] provided the caller supplied no
    (non-empty) user agent and did not pass [addUserAgent = false]; and they
    carry the [aws.endpoint] setting whenever that setting is a non-empty
    string. A user agent supplied by the caller is kept. *)
Theorem client_options_user_agent_and_endpoint
    (h : VsCode) (o : option ServiceConfigurationOptions)
    (r : option string) (a : option bool) (built : ServiceConfigurationOptions) :
  createAndConfigureServiceClient h id o r a = inr built →
  (truthy (suppliedUserAgent o) = false → a ≠ Some false →
     customUserAgent built
       = Some (flat ["AWS-Toolkit-For-VSCode"; "/"; pluginVersion h; " ";
                     replaceWhiteSpace (appName h); "/"; version h]) ∧
     userAgentForm (userAgent h) ∧
     (∀ c, In c (list_ascii_of_string (replaceWhiteSpace (appName h))) →
           isWhiteSpace c = false)) ∧
  (truthy (suppliedUserAgent o) = true →
     customUserAgent built = suppliedUserAgent o) ∧
  (∀ e, endpointSetting h = Some e → e ≠ EmptyString → endpoint built = Some e).
Proof.
  unfold createAndConfigureServiceClient, suppliedUserAgent, id.
  intros Hrun.
  assert (Hform := userAgent_form h).
  assert (Hclean := replaceWhiteSpace_clean (appName h)).
  destruct h as [app ver pv es gc]; simpl in *.
  destruct o as [[[c|] [[|? ?]|] [[|? ?]|] ep]|], gc as [err|c'], r as [[|? ?]|],
           a as [[|]|], es as [[|? ?]|];
    simpl in *; try discriminate Hrun; injection Hrun as <-; simpl;
    (split; [|split]);
    try (intros; discriminate); try (intros; congruence);
    try (intros; split; [reflexivity|split; assumption]);
    try (intros; reflexivity).
Qed.

Lemma client_options_user_agent_and_endpoint_witness :
  customUserAgent (mkOptions (Some "creds") None
     (Some "AWS-Toolkit-For-VSCode/1.20.0 Visual-Studio-Code/1.52.0")
     (Some "http://localhost:4566"))
    = Some (userAgent sampleHost).
Proof.
  refine (proj1 (proj1 (client_options_user_agent_and_endpoint
            sampleHost None None None _ eq_refl) eq_refl _)).
  discriminate.
Defined.

End AwsClientBuilderFacts.

(** ** Theorems: JSON text *)

Module JsonFacts.
Import Json.

Example stringify_sample :
  stringifyPairs [("AWS_Schema_registry", "testRegistry"); ("user_agent", "testAgent")]
  = flat ["{"; String quote "AWS_Schema_registry"; String quote ":";
          String quote "testRegistry"; String quote ",";
          String quote "user_agent"; String quote ":";
          String quote "testAgent"; String quote "}"].
Proof. reflexivity. Qed.

Lemma parse_escapeChar (c : ascii) (tail : string) :
  parseStringBody (String.append (escapeChar c) tail) = prepend c (parseStringBody tail).
Proof.
  destruct c as [[] [] [] [] [] [] [] []]; reflexivity.
Qed.

Lemma parse_escapeThen (s tail : string) :
  parseStringBody (escapeThen s tail) = Some (s, tail).
Proof.
  induction s as [|c s IH]; simpl; [reflexivity|].
  rewrite parse_escapeChar, IH. reflexivity.
Qed.

(** Consumes the string literal at the head of the input being parsed. *)
Ltac read_literal :=
  match goal with
  | |- context [parseStringBody (escapeThen ?s ?tail)] =>
      rewrite (parse_escapeThen s tail)
  end.

Lemma parseMembers_encodeMembers (l : list (string * string)) (fuel : nat) :
  l ≠ [] → (List.length l ≤ fuel)%nat → parseMembers fuel (encodeMembers l) = Some l.
Proof.
  revert fuel. induction l as [|[k v] l IH]; intros fuel Hne Hlen; [congruence|].
  destruct fuel as [|fuel]; [simpl in Hlen; lia|].
  cbn [encodeMembers parseMembers quoteString].
  rewrite Ascii.eqb_refl. read_literal.
  unfold quoteString. rewrite Ascii.eqb_refl.
  change (Ascii.eqb ":" ":") with true. cbn [andb].
  read_literal.
  destruct l as [|kv l]; [reflexivity|].
  change (Ascii.eqb "," ",") with true. cbv iota.
  rewrite IH; [reflexivity|congruence|simpl in *; lia].
Qed.

Lemma length_append_r (a b : string) :
  (String.length b ≤ String.length (String.append a b))%nat.
Proof.
  induction a as [|c a IH].
  - change (String.append EmptyString b) with b. lia.
  - change (String.append (String c a) b) with (String c (String.append a b)).
    cbn [String.length]. lia.
Qed.

Lemma length_escapeThen (s tail : string) :
  (String.length tail < String.length (escapeThen s tail))%nat.
Proof.
  induction s as [|c s IH]; cbn [escapeThen String.length]; [lia|].
  pose proof (length_append_r (escapeChar c) (escapeThen s tail)). lia.
Qed.

Lemma length_encodeMembers (l : list (string * string)) :
  (List.length l ≤ String.length (encodeMembers l))%nat.
Proof.
  induction l as [|[k v] l IH]; simpl; [lia|].
  pose proof (length_escapeThen k
    (String ":" (quoteString v match l with [] => "}" | _ :: _ => String "," (encodeMembers l) end))) as H1.
  simpl in H1.
  pose proof (length_escapeThen v
    match l with [] => "}" | _ :: _ => String "," (encodeMembers l) end) as H2.
  destruct l; simpl in *; lia.
Qed.

Lemma parsePairs_stringifyPairs (l : list (string * string)) :
  parsePairs (stringifyPairs l) = Some l.
Proof.
  destruct l as [|[k v] l]; [reflexivity|].
  unfold stringifyPairs, parsePairs. change (Ascii.eqb "{" "{") with true. cbv iota.
  set (body := encodeMembers ((k, v) :: l)).
  assert (Hb : parseMembers (String.length body) body = Some ((k, v) :: l))
    by (apply parseMembers_encodeMembers; [congruence|apply length_encodeMembers]).
  assert (Hshape : ∃ r, body = String quote r) by (eexists; reflexivity).
  destruct Hshape as [r Hr]. rewrite Hr in *.
  destruct r as [|c r]; [|exact Hb].
  simpl in Hb. discriminate Hb.
Qed.

(** Serialising a mapping and parsing the text gives the mapping back. *)
Lemma parse_stringify (m : gmap string string) : parse (stringify m) = Some m.
Proof.
  unfold parse, stringify. rewrite parsePairs_stringifyPairs. f_equal.
  rewrite <- (list_to_map_to_list m) at 2.
  apply list_to_map_proper.
  - rewrite fmap_reverse, reverse_Permutation. apply NoDup_fst_map_to_list.
  - apply reverse_Permutation.
Qed.

Example parse_escapes :
  parsePairs (flat ["{"; String quote "a\nA\/"; String quote ":";
                    String quote "x"; String quote "}"])
  = Some [(String "a" (String "010" (String "A" (String "/" EmptyString))), "x")].
Proof. reflexivity. Qed.

End JsonFacts.

(** ** Theorems: the [sam init] argument builder *)

Module SamCliInitFacts.
Import SamCliInit.

Example buildArgs_sample :
  buildArgs samTemplateParameter sampleSamInitArgs
  = ["init"; "--name"; "qwerty"; "--no-interactive"; "--dependency-manager"; "npm";
     "--runtime"; "nodejs10.x"; "--app-template"; "hello-world"].
Proof. reflexivity. Qed.

Section Facts.
Context {Template : Type} (param : Template → string).
Implicit Types (r : InitRequest Template) (f t : string).

Lemma flagsOf_app (l k : list CliArg) : flagsOf (l ++ k) = flagsOf l ++ flagsOf k.
Proof. apply omap_app. Qed.

Lemma flagsOf_optional f (v : option string) :
  flagsOf (optional f v) = match v with Some _ => [f] | None => [] end.
Proof. destruct v; reflexivity. Qed.

Lemma render_tokens (l : list CliArg) t :
  t ∈ List.concat (render <$> l) →
  Subcommand t ∈ l ∨ t ∈ flagsOf l ∨ t ∈ valuesOf l.
Proof.
  unfold flagsOf, valuesOf.
  induction l as [|a l IH]; cbn [fmap list_fmap List.concat].
  - intros H. inversion H.
  - rewrite elem_of_app. intros [H|H].
    + destruct a as [n|g|g v]; cbn in *;
        repeat (apply elem_of_cons in H as [->|H]); try (by inversion H);
        rewrite ?elem_of_cons; auto.
    + destruct (IH H) as [?|[?|?]]; destruct a; cbn;
        rewrite ?elem_of_cons; auto.
Qed.

(** Every token of the argument vector is the subcommand, a flag, or a
    value. *)
Lemma buildArgs_tokens r t :
  t ∈ buildArgs param r →
  t = "init" ∨ t ∈ flagsOf (initArgs param r) ∨ t ∈ valuesOf (initArgs param r).
Proof.
  intros H. apply render_tokens in H as [H|H]; [left|right; exact H].
  unfold initArgs in H.
  destruct (packageType r), (runtime r), (template r), (baseImage r),
           (extraTemplateContext r); cbn in H;
    repeat (apply elem_of_cons in H as [H|H]; [congruence|]); inversion H.
Qed.

(** The flags of an init command line. *)
Lemma initArgs_flags r :
  flagsOf (initArgs param r)
  = ["--name"; "--no-interactive"; "--dependency-manager"]
    ++ match packageType r with
       | Image => match baseImage r with Some _ => ["--base-image"] | None => [] end
       | Zip => match runtime r with Some _ => ["--runtime"] | None => [] end
                ++ match template r with Some _ => ["--app-template"] | None => [] end
       end
    ++ match extraTemplateContext r with Some _ => ["--extra-context"] | None => [] end.
Proof.
  unfold initArgs.
  destruct (packageType r), (runtime r), (template r), (baseImage r),
           (extraTemplateContext r); reflexivity.
Qed.

(** C6: a Zip request without a template identifier yields an argument
    vector without the [--app-template] flag: the flag is not among the
    emitted flags, and the token occurs nowhere in the vector unless the
    request's own name, dependency manager or runtime is that very token.
    More generally none of [--runtime], [--base-image], [--app-template],
    [--extra-context] is emitted when its value is absent. *)
Theorem flag_omitted_when_value_absent r :
  (packageType r = Zip → template r = None →
     ("--app-template" ∉ flagsOf (initArgs param r)) ∧
     (projectName r ≠ "--app-template" →
      dependencyManager r ≠ "--app-template" →
      runtime r ≠ Some "--app-template" →
      "--app-template" ∉ buildArgs param r)) ∧
  (runtime r = None → "--runtime" ∉ flagsOf (initArgs param r)) ∧
  (baseImage r = None → "--base-image" ∉ flagsOf (initArgs param r)) ∧
  (template r = None → "--app-template" ∉ flagsOf (initArgs param r)) ∧
  (extraTemplateContext r = None → "--extra-context" ∉ flagsOf (initArgs param r)).
Proof.
  assert (Hflags := initArgs_flags r).
  assert (Hno : ∀ f, f ∈ flagsOf (initArgs param r) →
            f = "--name" ∨ f = "--no-interactive" ∨ f = "--dependency-manager" ∨
            (f = "--base-image" ∧ packageType r = Image ∧ baseImage r ≠ None) ∨
            (f = "--runtime" ∧ packageType r = Zip ∧ runtime r ≠ None) ∨
            (f = "--app-template" ∧ packageType r = Zip ∧ template r ≠ None) ∨
            (f = "--extra-context" ∧ extraTemplateContext r ≠ None)).
  { intros f. rewrite Hflags.
    destruct (packageType r), (runtime r), (template r), (baseImage r),
             (extraTemplateContext r); cbn; intros H;
      repeat (apply elem_of_cons in H as [->|H]); try (by inversion H);
      intuition congruence. }
  assert (Htpl : template r = None → "--app-template" ∉ flagsOf (initArgs param r)).
  { intros Ht Hin. apply Hno in Hin. intuition congruence. }
  split; [|split; [|split; [|split]]].
  - intros Hz Ht. split; [auto|].
    intros Hn Hd Hr Hin.
    apply buildArgs_tokens in Hin as [Hin|[Hin|Hin]];
      [discriminate|exact (Htpl Ht Hin)|].
    unfold initArgs, valuesOf in Hin. rewrite Hz, Ht in Hin.
    destruct (runtime r) as [rt|], (extraTemplateContext r) as [m|]; cbn in Hin;
      repeat (apply elem_of_cons in Hin as [Hin|Hin]; [try congruence|]);
      try (by inversion Hin).
  - intros Hv Hin. apply Hno in Hin. intuition congruence.
  - intros Hv Hin. apply Hno in Hin. intuition congruence.
  - exact Htpl.
  - intros Hv Hin. apply Hno in Hin. intuition congruence.
Qed.

(** C7: a request with an extra template context yields exactly one
    [--extra-context] entry; its value is one token, it follows the flag
    at the end of the vector, and parsing it as JSON gives back the
    original mapping. *)
Theorem extra_context_round_trip r (m : gmap string string) :
  extraTemplateContext r = Some m →
  ∃ v : string,
    List.filter (hasFlag "--extra-context") (initArgs param r)
      = [Valued "--extra-context" v] ∧
    (∃ pre, buildArgs param r = pre ++ ["--extra-context"; v]) ∧
    List.length (List.filter (String.eqb "--extra-context")
                             (flagsOf (initArgs param r))) = 1%nat ∧
    Json.parse v = Some m.
Proof.
  intros Hm. exists (Json.stringify m). split; [|split; [|split]].
  - unfold initArgs. rewrite Hm.
    destruct (packageType r), (runtime r), (template r), (baseImage r); reflexivity.
  - unfold buildArgs, initArgs. rewrite Hm, app_assoc, fmap_app, concat_app.
    eexists. reflexivity.
  - rewrite initArgs_flags, Hm.
    destruct (packageType r), (runtime r), (template r), (baseImage r); reflexivity.
  - apply JsonFacts.parse_stringify.
Qed.

End Facts.

Lemma flag_omitted_when_value_absent_witness :
  "--app-template" ∉ buildArgs samTemplateParameter sampleWithoutTemplate.
Proof.
  refine (proj2 (proj1 (flag_omitted_when_value_absent
                          samTemplateParameter sampleWithoutTemplate)
                       eq_refl eq_refl) _ _ _); discriminate.
Defined.

Lemma extra_context_round_trip_witness :
  ∃ v : string,
    List.filter (hasFlag "--extra-context")
                (initArgs samTemplateParameter samInitArgsWithExtraContent)
      = [Valued "--extra-context" v] ∧
    (∃ pre, buildArgs samTemplateParameter samInitArgsWithExtraContent
            = pre ++ ["--extra-context"; v]) ∧
    List.length (List.filter (String.eqb "--extra-context")
       (flagsOf (initArgs samTemplateParameter samInitArgsWithExtraContent))) = 1%nat ∧
    Json.parse v = Some extraContent.
Proof.
  exact (extra_context_round_trip samTemplateParameter
           samInitArgsWithExtraContent extraContent eq_refl).
Defined.

Example app_template_passed :
  ∃ pre post, buildArgs samTemplateParameter sampleSamInitArgs
              = pre ++ ["--app-template"; "hello-world"] ++ post.
Proof. eexists (_ :: _ :: _ :: _ :: _ :: _ :: _ :: [_]), []. reflexivity. Qed.

End SamCliInitFacts.

(** ** Theorems: the exit-code validator *)

Module ExitCodeFacts.
Import ExitCode.

Section Facts.
Variable truncate : string → string.
Implicit Types (r : ProcessResult) (log : Log).

Lemma codeMatches_spec (actual : option Z) (expected : Z) :
  codeMatches actual expected = true ↔ actual = Some expected.
Proof.
  destruct actual as [c|]; simpl; [|split; discriminate].
  rewrite Z.eqb_eq. split; congruence.
Qed.

Lemma isMismatch_spec r (expected : Z) :
  isMismatch r expected = true ↔ exitCode r ≠ Some expected ∨ launchError r ≠ None.
Proof.
  unfold isMismatch. destruct (launchError r) as [e|].
  - split; [right; discriminate|reflexivity].
  - rewrite negb_true_iff, <- not_true_iff_false, codeMatches_spec.
    split; [left; assumption|intros [H|H]; [assumption|congruence]].
Qed.

(** C2: the validator raises exactly when the exit code differs from the
    expected one or a launch error is present; the error raised is an
    [UnexpectedExitCodeError] with the expected code, the actual code and
    the captured output. With the expected exit code and no launch error
    it returns, whatever the expected code, and leaves the log alone. *)
Theorem checkExit_raises_iff_mismatch r (expected : Z) log :
  ((∃ e, (checkExit truncate r expected log).2 = Throw e)
     ↔ exitCode r ≠ Some expected ∨ launchError r ≠ None) ∧
  (∀ e, (checkExit truncate r expected log).2 = Throw e →
        e = UnexpectedExitCodeError expected (exitCode r) (stdout r) (stderr r)
                                    (errorMessage <$> launchError r)) ∧
  (exitCode r = Some expected → launchError r = None →
     checkExit truncate r expected log = (log, Normal tt)).
Proof.
  pose proof (isMismatch_spec r expected) as Hm.
  unfold checkExit. destruct (isMismatch r expected) eqn:E.
  - split; [|split].
    + split; [intros _; apply Hm; reflexivity|intros _; eexists; reflexivity].
    + intros e [= <-]. reflexivity.
    + intros Hc Hl. exfalso.
      destruct (proj1 Hm eq_refl) as [H|H]; congruence.
  - split; [|split].
    + split; [intros [e He]; discriminate He|].
      intros H. apply Hm in H. discriminate H.
    + intros e He. discriminate He.
    + reflexivity.
Qed.

(** C3: whenever the validator fails, the log has grown by exactly one
    entry when the error surfaces: the diagnostic record with the expected
    code, the actual code, the (shortened) standard output and standard
    error and the message of the triggering error if there is one. The
    entry is written by the statement that precedes the [throw]. *)
Theorem checkExit_logs_once_then_raises r (expected : Z) log (e : Error) :
  (checkExit truncate r expected log).2 = Throw e →
  checkExit truncate r expected log
    = (log ++ [mkDiagnostic expected (exitCode r) (truncate (stdout r))
                            (truncate (stderr r)) (errorMessage <$> launchError r)],
       Throw (unexpectedExitCode r expected)) ∧
  checkExit truncate r expected
    = bind (writeLog (diagnosticOf truncate r expected))
           (λ _, throw (unexpectedExitCode r expected)).
Proof.
  unfold checkExit. destruct (isMismatch r expected); [|discriminate].
  intros _. split; reflexivity.
Qed.

End Facts.

Example does_not_throw_on_expected_exit_code :
  checkExit id expectedResult 123 [] = ([], Normal tt).
Proof. reflexivity. Qed.

Example throws_on_unexpected_exit_code :
  checkExit id badResult 456 []
  = ([mkDiagnostic 456 (Some 123) "stdout text" "stderr text" (Some "bad result")],
     Throw (UnexpectedExitCodeError 456 (Some 123) "stdout text" "stderr text"
                                    (Some "bad result"))).
Proof. reflexivity. Qed.

Lemma checkExit_raises_iff_mismatch_witness :
  checkExit id expectedResult 123 [] = ([], Normal tt).
Proof.
  exact (proj2 (proj2 (checkExit_raises_iff_mismatch id expectedResult 123 []))
               eq_refl eq_refl).
Defined.

Lemma checkExit_logs_once_then_raises_witness :
  checkExit id badResult 456 []
  = ([mkDiagnostic 456 (Some 123) "stdout text" "stderr text" (Some "bad result")],
     Throw (unexpectedExitCode badResult 456)).
Proof.
  exact (proj1 (checkExit_logs_once_then_raises id badResult 456 []
                  (unexpectedExitCode badResult 456) eq_refl)).
Defined.

End ExitCodeFacts.

(** ** Theorems: [addInitialLaunchConfiguration] *)

Module ReconcilerFacts.
Import Host Reconciler.

Example reconcile_match :
  (addInitialLaunchConfiguration (sampleCollaborators false) "/w" "/w/test.yaml" None
     sampleWorld).2 = Normal (Some [1%positive]).
Proof. vm_compute. reflexivity. Qed.

Example reconcile_no_match :
  (addInitialLaunchConfiguration (sampleCollaborators false) "/w" "/w/thisAintIt.yaml" None
     sampleWorld).2 = Normal (Some []).
Proof. vm_compute. reflexivity. Qed.

Example reconcile_with_runtime :
  let w := (addInitialLaunchConfiguration (sampleCollaborators false) "/w" "/w/test.yaml"
              (Some "someruntime") sampleWorld).1 in
  ∃ h, (lambda <$> configs (store w) !! 1%positive) = Some (Some h) ∧
       (runtime <$> holders (store w) !! h) = Some (Some "someruntime").
Proof. vm_compute. eexists. split; reflexivity. Qed.

(** *** One run, spelled out *)

Lemma reconciler_run (k : Collaborators) (folderPath targetPath : string)
    (runtime_ : option string) (candidates : list loc) (w : World) :
  provideDebugConfigurations k = inr (Some candidates) →
  let filtered := List.filter (targetsTemplate k folderPath targetPath (store w)) candidates in
  let st' := stampAll runtime_ filtered (store w) in
  addInitialLaunchConfiguration k folderPath targetPath runtime_ w
  = (mkWorld st' (samInitState w) (trace w ++ [AddDebugConfigurations filtered]),
     match addDebugConfigurations k st' filtered with
     | Some e => Throw e
     | None => Normal (Some filtered)
     end).
Proof.
  intros Hp.
  unfold addInitialLaunchConfiguration, persist, appendEvent, updateStore, modify, gets,
    liftResult, mbind, M_bind, bind, throw, ret.
  rewrite Hp. cbn.
  destruct (addDebugConfigurations k _ _); reflexivity.
Qed.

Lemma no_candidate_list_run (k : Collaborators) (folderPath targetPath : string)
    (runtime_ : option string) (w : World) :
  provideDebugConfigurations k = inr None →
  addInitialLaunchConfiguration k folderPath targetPath runtime_ w = (w, Normal None).
Proof.
  intros Hp.
  unfold addInitialLaunchConfiguration, liftResult, mbind, M_bind, bind, ret.
  rewrite Hp. reflexivity.
Qed.

(** *** The effect of [stampRuntime] on the heap *)

Section Stamp.
Variable r : string.
Implicit Types (st : Store) (c : loc) (h : loc).

Lemma stampRuntime_unallocated st c :
  configs st !! c = None → stampRuntime r st c = st.
Proof. intros H. unfold stampRuntime. rewrite H. reflexivity. Qed.

Lemma stampRuntime_held st c config h :
  configs st !! c = Some config → lambda config = Some h →
  stampRuntime r st c = mkStore (configs st) (alter (setRuntime r) h (holders st)).
Proof. intros H1 H2. unfold stampRuntime. rewrite H1, H2. reflexivity. Qed.

Lemma stampRuntime_created st c config :
  configs st !! c = Some config → lambda config = None →
  stampRuntime r st c
  = mkStore (<[c := setLambda (fresh (dom (holders st))) config]> (configs st))
            (<[fresh (dom (holders st)) := setRuntime r emptyHolder]> (holders st)).
Proof.
  intros H1 H2. unfold stampRuntime. rewrite H1, H2. cbn. f_equal.
  apply map_eq. intros i. rewrite lookup_alter.
  destruct (decide (i = fresh (dom (holders st)))) as [->|Hne].
  - rewrite decide_True by reflexivity. rewrite !lookup_insert_eq. reflexivity.
  - rewrite decide_False by congruence. rewrite !lookup_insert_ne by congruence.
    reflexivity.
Qed.

Lemma fresh_holder_unused st : holders st !! fresh (dom (holders st)) = None.
Proof. apply not_elem_of_dom, is_fresh. Qed.

Lemma stampRuntime_configs st c c' :
  match configs st !! c' with
  | Some config =>
      ∃ config', configs (stampRuntime r st c) !! c' = Some config' ∧
                 evolves st config config' ∧ (c' ≠ c → config' = config)
  | None => configs (stampRuntime r st c) !! c' = None
  end.
Proof.
  destruct (configs st !! c) as [config0|] eqn:Hc.
  - destruct (lambda config0) as [h|] eqn:Hl.
    + rewrite (stampRuntime_held st c config0 h Hc Hl). cbn.
      destruct (configs st !! c') as [config|]; [|reflexivity].
      exists config. split; [reflexivity|]. split; [left; reflexivity|reflexivity].
    + rewrite (stampRuntime_created st c config0 Hc Hl). cbn.
      destruct (decide (c' = c)) as [->|Hne].
      * rewrite Hc, lookup_insert_eq. eexists. split; [reflexivity|].
        split; [|congruence]. right. split; [exact Hl|].
        eexists. split; [apply fresh_holder_unused|reflexivity].
      * rewrite lookup_insert_ne by congruence.
        destruct (configs st !! c') as [config|]; [|reflexivity].
        exists config. split; [reflexivity|]. split; [left; reflexivity|reflexivity].
  - rewrite (stampRuntime_unallocated st c Hc).
    destruct (configs st !! c') as [config|]; [|reflexivity].
    exists config. split; [reflexivity|]. split; [left; reflexivity|reflexivity].
Qed.

(** A holder on the heap stays there; it changes only if the stamped
    configuration refers to it, and then only in its runtime. *)
Lemma stampRuntime_holders st c h x :
  holders st !! h = Some x →
  ∃ x', holders (stampRuntime r st c) !! h = Some x' ∧
        (x' = x ∨ (x' = setRuntime r x ∧
                    ∃ config, configs st !! c = Some config ∧ lambda config = Some h)).
Proof.
  intros Hx. destruct (configs st !! c) as [config0|] eqn:Hc.
  - destruct (lambda config0) as [h0|] eqn:Hl.
    + rewrite (stampRuntime_held st c config0 h0 Hc Hl). cbn. rewrite lookup_alter.
      destruct (decide (h = h0)) as [->|Hne].
      * rewrite decide_True by reflexivity. rewrite Hx. cbn.
        eexists. split; [reflexivity|]. right. split; [reflexivity|]. eauto.
      * rewrite decide_False by congruence. eauto.
    + rewrite (stampRuntime_created st c config0 Hc Hl). cbn.
      rewrite lookup_insert_ne.
      * eauto.
      * intros <-. rewrite fresh_holder_unused in Hx. discriminate.
  - rewrite (stampRuntime_unallocated st c Hc). eauto.
Qed.

Lemma stampRuntime_self st c config :
  configs st !! c = Some config →
  (∀ h, lambda config = Some h → is_Some (holders st !! h)) →
  hasRuntime r (stampRuntime r st c) c.
Proof.
  intros Hc Hwf. destruct (lambda config) as [h|] eqn:Hl.
  - destruct (Hwf h eq_refl) as [x Hx].
    rewrite (stampRuntime_held st c config h Hc Hl).
    exists config, h, (setRuntime r x). cbn.
    rewrite lookup_alter, decide_True by reflexivity. rewrite Hx. auto.
  - rewrite (stampRuntime_created st c config Hc Hl).
    eexists _, _, _. cbn. rewrite !lookup_insert_eq. auto.
Qed.

Lemma stampRuntime_keeps_runtime st c c' :
  hasRuntime r st c' → hasRuntime r (stampRuntime r st c) c'.
Proof.
  intros (config & h & x & Hc & Hl & Hx & Hr).
  pose proof (stampRuntime_configs st c c') as Hcfg. rewrite Hc in Hcfg.
  destruct Hcfg as (config' & Hc' & Hev & _).
  assert (config' = config) as ->.
  { destruct Hev as [?|[Hnone _]]; [assumption|congruence]. }
  destruct (stampRuntime_holders st c h x Hx) as (x' & Hx' & Hcase).
  exists config, h, x'. repeat split; try assumption.
  destruct Hcase as [->|[-> _]]; [assumption|reflexivity].
Qed.

Lemma stampRuntime_wellFormed st c (l : list loc) :
  wellFormed st l → wellFormed (stampRuntime r st c) l.
Proof.
  intros [Ha Hh]. split.
  - intros c' Hin. destruct (Ha c' Hin) as [config Hc].
    pose proof (stampRuntime_configs st c c') as Hcfg. rewrite Hc in Hcfg.
    destruct Hcfg as (config' & -> & _). eauto.
  - intros c' config' h Hc' Hl'.
    pose proof (stampRuntime_configs st c c') as Hcfg.
    destruct (configs st !! c') as [config|] eqn:Hc; [|congruence].
    destruct Hcfg as (config'' & Hc'' & Hev & _).
    assert (config'' = config') as -> by congruence.
    destruct Hev as [->|(Hnone & h0 & Hfree & ->)].
    + destruct (Hh c' config h Hc Hl') as [x Hx].
      destruct (stampRuntime_holders st c h x Hx) as (x' & -> & _). eauto.
    + cbn in Hl'. injection Hl' as <-.
      destruct (decide (c' = c)) as [->|Hne].
      * destruct (stampRuntime_self st c config Hc) as (cf & h1 & x1 & H1 & H2 & H3 & _).
        { intros h1 Hh1. congruence. }
        rewrite Hc'' in H1. injection H1 as <-. cbn in H2. injection H2 as <-. eauto.
      * pose proof (stampRuntime_configs st c c') as Hcfg. rewrite Hc in Hcfg.
        destruct Hcfg as (cf & Hcf & _ & Hsame). specialize (Hsame Hne). subst cf.
        rewrite Hc'' in Hcf. injection Hcf as Heq.
        rewrite <- Heq in Hnone. discriminate Hnone.
Qed.

(** *** The effect of the whole [forEach] *)

Lemma wellFormed_tail st c (l : list loc) : wellFormed st (c :: l) → wellFormed st l.
Proof.
  intros [Ha Hh]. split; [|exact Hh].
  intros c' Hin. apply Ha. right. exact Hin.
Qed.

Lemma evolves_trans st st1 config config1 config2 :
  (∀ h, holders st1 !! h = None → holders st !! h = None) →
  evolves st config config1 → evolves st1 config1 config2 →
  evolves st config config2.
Proof.
  intros Hmono [->|(Hnone & h & Hfree & ->)] H2.
  - destruct H2 as [->|(Hnone & h & Hfree & ->)]; [left; reflexivity|].
    right. split; [assumption|]. exists h. auto.
  - destruct H2 as [->|(Hnone2 & _)]; [|discriminate Hnone2].
    right. split; [assumption|]. exists h. auto.
Qed.

Lemma stampRuntime_holders_dom st c h :
  holders (stampRuntime r st c) !! h = None → holders st !! h = None.
Proof.
  intros Hn. destruct (holders st !! h) as [x|] eqn:Hx; [|reflexivity].
  destruct (stampRuntime_holders st c h x Hx) as (x' & Hx' & _). congruence.
Qed.

Lemma stamps_holders_dom (l : list loc) st h :
  holders (foldl (stampRuntime r) st l) !! h = None → holders st !! h = None.
Proof.
  revert st. induction l as [|a l IH]; intros st; cbn; [auto|].
  intros H. apply IH in H. eapply stampRuntime_holders_dom. exact H.
Qed.

Lemma stamps_configs (l : list loc) st c :
  match configs st !! c with
  | Some config =>
      ∃ config', configs (foldl (stampRuntime r) st l) !! c = Some config' ∧
                 evolves st config config'
  | None => configs (foldl (stampRuntime r) st l) !! c = None
  end.
Proof.
  revert st. induction l as [|a l IH]; intros st; cbn.
  - destruct (configs st !! c) as [config|]; [|reflexivity].
    exists config. split; [reflexivity|left; reflexivity].
  - pose proof (stampRuntime_configs st a c) as Hstep.
    specialize (IH (stampRuntime r st a)).
    destruct (configs st !! c) as [config|].
    + destruct Hstep as (config1 & Hc1 & Hev1 & _). rewrite Hc1 in IH.
      destruct IH as (config2 & Hc2 & Hev2). exists config2. split; [exact Hc2|].
      eapply evolves_trans; [|exact Hev1|exact Hev2].
      intros h. apply stampRuntime_holders_dom.
    + rewrite Hstep in IH. exact IH.
Qed.

Lemma stamps_configs_frame (l : list loc) st c :
  c ∉ l → configs (foldl (stampRuntime r) st l) !! c = configs st !! c.
Proof.
  revert st. induction l as [|a l IH]; intros st Hnin; cbn; [reflexivity|].
  apply not_elem_of_cons in Hnin as [Hne Hnin].
  rewrite (IH _ Hnin).
  pose proof (stampRuntime_configs st a c) as Hstep.
  destruct (configs st !! c) as [config|]; [|exact Hstep].
  destruct Hstep as (config' & -> & _ & Hsame). rewrite (Hsame Hne). reflexivity.
Qed.

Lemma stamps_keep_runtime (l : list loc) st c :
  hasRuntime r st c → hasRuntime r (foldl (stampRuntime r) st l) c.
Proof.
  revert st. induction l as [|a l IH]; intros st H; cbn; [exact H|].
  apply IH, stampRuntime_keeps_runtime, H.
Qed.

Lemma stamps_hasRuntime (l : list loc) st c :
  wellFormed st l → c ∈ l → hasRuntime r (foldl (stampRuntime r) st l) c.
Proof.
  revert st. induction l as [|a l IH]; intros st Hwf Hin; [inversion Hin|].
  cbn. apply elem_of_cons in Hin as [->|Hin].
  - destruct Hwf as [Ha Hh]. destruct (Ha a) as [config Hc]; [left|].
    apply stamps_keep_runtime. eapply stampRuntime_self; [exact Hc|].
    intros h Hl. eapply Hh; eassumption.
  - apply IH; [|exact Hin].
    eapply wellFormed_tail, stampRuntime_wellFormed, Hwf.
Qed.

Lemma stamps_holders_frame (l : list loc) st h x :
  holders st !! h = Some x →
  (∀ c config, c ∈ l → configs st !! c = Some config → lambda config ≠ Some h) →
  holders (foldl (stampRuntime r) st l) !! h = Some x.
Proof.
  revert st. induction l as [|a l IH]; intros st Hx Hfree; cbn; [exact Hx|].
  apply IH.
  - destruct (stampRuntime_holders st a h x Hx) as (x' & Hx' & [->|[_ Hused]]);
      [exact Hx'|].
    destruct Hused as (config & Hc & Hl). exfalso.
    eapply (Hfree a config); [left|exact Hc|exact Hl].
  - intros c config1 Hin Hc1 Hl1.
    pose proof (stampRuntime_configs st a c) as Hstep.
    destruct (configs st !! c) as [config|] eqn:Hc; [|congruence].
    destruct Hstep as (config' & Hc' & Hev & _).
    assert (config' = config1) as -> by congruence.
    destruct Hev as [->|(_ & h0 & Hh0 & ->)].
    + eapply (Hfree c config); [right; exact Hin|exact Hc|exact Hl1].
    + cbn in Hl1. congruence.
Qed.

Lemma evolves_invokeTarget st config config' :
  evolves st config config' → invokeTarget config' = invokeTarget config.
Proof. intros [->|(_ & h & _ & ->)]; reflexivity. Qed.

Lemma stamps_targetsTemplate (k : Collaborators) (folderPath targetPath : string)
    (l : list loc) st c :
  targetsTemplate k folderPath targetPath (foldl (stampRuntime r) st l) c
  = targetsTemplate k folderPath targetPath st c.
Proof.
  unfold targetsTemplate. pose proof (stamps_configs l st c) as H.
  destruct (configs st !! c) as [config|].
  - destruct H as (config' & -> & Hev).
    rewrite (evolves_invokeTarget _ _ _ Hev). reflexivity.
  - rewrite H. reflexivity.
Qed.

End Stamp.

Lemma stampAll_targetsTemplate (k : Collaborators) (folderPath targetPath : string)
    (runtime_ : option string) (l : list loc) (st : Store) (c : loc) :
  targetsTemplate k folderPath targetPath (stampAll runtime_ l st) c
  = targetsTemplate k folderPath targetPath st c.
Proof.
  destruct runtime_ as [r|]; [apply stamps_targetsTemplate|reflexivity].
Qed.

(** *** The reconciler *)

Lemma sampleStore_wellFormed : wellFormed sampleStore [1%positive; 2%positive].
Proof.
  split.
  - intros c Hc. apply elem_of_cons in Hc as [->|Hc]; [vm_compute; eauto|].
    apply elem_of_cons in Hc as [->|Hc]; [vm_compute; eauto|inversion Hc].
  - intros c config h Hc Hl. unfold sampleStore in Hc. cbn in Hc.
    destruct (decide (c = 1%positive)) as [->|H1].
    + rewrite lookup_insert_eq in Hc. injection Hc as <-. discriminate Hl.
    + rewrite lookup_insert_ne in Hc by congruence.
      destruct (decide (c = 2%positive)) as [->|H2].
      * rewrite lookup_insert_eq in Hc. injection Hc as <-. cbn in Hl.
        injection Hl as <-. vm_compute. eauto.
      * rewrite lookup_insert_ne in Hc by congruence.
        rewrite lookup_empty in Hc. discriminate Hc.
Qed.

Lemma filter_none {A : Type} (f : A → bool) (l : list A) :
  (∀ a, a ∈ l → f a = false) → List.filter f l = [].
Proof.
  induction l as [|a l IH]; intros H; [reflexivity|].
  cbn. rewrite (H a) by left. apply IH. intros b Hb. apply H. right. exact Hb.
Qed.

Lemma filter_targetsTemplate (k : Collaborators) (folderPath targetPath : string)
    (st : Store) (candidates : list loc) (c : loc) :
  c ∈ List.filter (targetsTemplate k folderPath targetPath st) candidates ↔
  c ∈ candidates ∧
  ∃ config templatePath logicalId,
    configs st !! c = Some config ∧
    invokeTarget config = TemplateTarget templatePath logicalId ∧
    areEqual k folderPath templatePath targetPath = true.
Proof.
  rewrite !list_elem_of_In, filter_In, <- list_elem_of_In. unfold targetsTemplate.
  split; intros [Hin H]; (split; [exact Hin|]).
  - destruct (configs st !! c) as [config|]; [|discriminate].
    destruct (invokeTarget config) as [tp lid|] eqn:Ht; [|discriminate].
    cbn in H. eauto 6.
  - destruct H as (config & tp & lid & -> & -> & Heq). cbn. exact Heq.
Qed.

(** C1: given a list of candidates, the reconciler returns (once the persist
    step has completed) a present value: exactly the candidates, in order,
    whose invoke target is a template target and whose [templatePath] is
    path-equal, relative to the workspace folder, to the target file. Whatever
    the call returns is that list, never the absent value; the selection reads
    the same on the heap after the call; and when no candidate matches the
    list is empty. *)
Theorem reconciler_returns_matching_candidates (k : Collaborators)
    (folderPath targetPath : string) (runtime_ : option string)
    (candidates : list loc) (w : World) :
  provideDebugConfigurations k = inr (Some candidates) →
  let filtered := List.filter (targetsTemplate k folderPath targetPath (store w)) candidates in
  let run := addInitialLaunchConfiguration k folderPath targetPath runtime_ w in
  (addDebugConfigurations k (stampAll runtime_ filtered (store w)) filtered = None →
   run.2 = Normal (Some filtered)) ∧
  (∀ v, run.2 = Normal v → v = Some filtered) ∧
  (∀ c, c ∈ filtered ↔
        c ∈ candidates ∧
        ∃ config templatePath logicalId,
          configs (store w) !! c = Some config ∧
          isTemplateTargetProperties (invokeTarget config) = true ∧
          invokeTarget config = TemplateTarget templatePath logicalId ∧
          areEqual k folderPath templatePath targetPath = true) ∧
  filtered = List.filter (targetsTemplate k folderPath targetPath (store run.1)) candidates ∧
  ((∀ c, c ∈ candidates → targetsTemplate k folderPath targetPath (store w) c = false) →
   filtered = []).
Proof.
  intros Hp filtered run. unfold run.
  rewrite (reconciler_run k folderPath targetPath runtime_ candidates w Hp).
  cbv zeta. fold filtered. cbn [fst snd store].
  split; [|split; [|split; [|split]]].
  - intros ->. reflexivity.
  - intros v. destruct (addDebugConfigurations k _ filtered); [discriminate|].
    intros [= <-]. reflexivity.
  - intros c. unfold filtered. rewrite filter_targetsTemplate.
    split; intros [Hin (config & tp & lid & H)]; (split; [exact Hin|]);
      exists config, tp, lid.
    + destruct H as (Hc & Ht & Heq). rewrite Ht. auto.
    + tauto.
  - unfold filtered. apply List.filter_ext. intros c.
    symmetry. apply stampAll_targetsTemplate.
  - intros Hnone. apply filter_none, Hnone.
Qed.

Lemma reconciler_returns_matching_candidates_witness :
  (addInitialLaunchConfiguration (sampleCollaborators false) "/w" "/w/test.yaml"
     (Some "someruntime") sampleWorld).2
  = Normal (Some [1%positive]).
Proof.
  exact (proj1 (reconciler_returns_matching_candidates (sampleCollaborators false)
                  "/w" "/w/test.yaml" (Some "someruntime") [1%positive; 2%positive]
                  sampleWorld eq_refl) eq_refl).
Defined.

Lemma wellFormed_filter (st : Store) (f : loc → bool) (l : list loc) :
  wellFormed st l → wellFormed st (List.filter f l).
Proof.
  intros [Ha Hh]. split; [|exact Hh].
  intros c Hin. apply Ha. apply list_elem_of_In. apply list_elem_of_In in Hin.
  apply filter_In in Hin. tauto.
Qed.

Lemma setLambda_held (config : DebugConfiguration) (h : loc) :
  lambda config = Some h → setLambda h config = config.
Proof. destruct config; cbn. intros ->. reflexivity. Qed.

(** C4: after a call with a runtime, every configuration of the filtered
    list holds an object under [lambda] (the one it held before, or a new
    one if it held none) whose runtime is the supplied value, and is
    otherwise as before. No configuration outside the filtered list is
    written to, and neither is any holder that no filtered configuration
    refers to. This is so whether or not the persist step then fails. *)
Theorem runtime_stamped_on_filtered_only (k : Collaborators)
    (folderPath targetPath r : string) (candidates : list loc) (w : World) :
  provideDebugConfigurations k = inr (Some candidates) →
  wellFormed (store w) candidates →
  let filtered := List.filter (targetsTemplate k folderPath targetPath (store w)) candidates in
  let w' := (addInitialLaunchConfiguration k folderPath targetPath (Some r) w).1 in
  (∀ c, c ∈ filtered →
     ∃ config h x,
       configs (store w) !! c = Some config ∧
       configs (store w') !! c = Some (setLambda h config) ∧
       (lambda config = Some h ∨ (lambda config = None ∧ holders (store w) !! h = None)) ∧
       holders (store w') !! h = Some x ∧
       runtime x = Some r) ∧
  (∀ c, c ∉ filtered → configs (store w') !! c = configs (store w) !! c) ∧
  (∀ h x, holders (store w) !! h = Some x →
          (∀ c config, c ∈ filtered → configs (store w) !! c = Some config →
                       lambda config ≠ Some h) →
          holders (store w') !! h = Some x).
Proof.
  intros Hp Hwf filtered w'.
  assert (Hst : store w' = foldl (stampRuntime r) (store w) filtered).
  { unfold w'.
    rewrite (reconciler_run k folderPath targetPath (Some r) candidates w Hp).
    reflexivity. }
  rewrite Hst. clear Hst w'.
  assert (Hwf' : wellFormed (store w) filtered) by apply wellFormed_filter, Hwf.
  split; [|split].
  - intros c Hin.
    destruct (stamps_hasRuntime r filtered (store w) c Hwf' Hin)
      as (config' & h & x & Hc' & Hl' & Hx & Hr).
    destruct (proj1 Hwf' c Hin) as [config Hc].
    pose proof (stamps_configs r filtered (store w) c) as Hev. rewrite Hc in Hev.
    destruct Hev as (config'' & Hc'' & Hev).
    assert (config'' = config') as -> by congruence.
    exists config, h, x. split; [exact Hc|].
    destruct Hev as [->|(Hnone & h0 & Hfree & ->)].
    + rewrite (setLambda_held config h Hl'). auto.
    + cbn in Hl'. injection Hl' as <-. auto 6.
  - intros c Hnin. apply stamps_configs_frame, Hnin.
  - intros h x Hx Hfree. apply stamps_holders_frame; assumption.
Qed.

Lemma runtime_stamped_on_filtered_only_witness :
  let w' := (addInitialLaunchConfiguration (sampleCollaborators false) "/w" "/w/test.yaml"
               (Some "someruntime") sampleWorld).1 in
  configs (store w') !! 2%positive = configs sampleStore !! 2%positive.
Proof.
  refine (proj1 (proj2 (runtime_stamped_on_filtered_only (sampleCollaborators false)
            "/w" "/w/test.yaml" "someruntime" [1%positive; 2%positive] sampleWorld
            eq_refl sampleStore_wellFormed)) 2%positive _).
  vm_compute. intros H. inversion H as [|? ? ? H']; subst. inversion H'.
Defined.

(** C5 (as stated, refuted): when the persist step fails, the call ends with
    the failure and hands no list back. *)
Lemma persist_failure_counterexample : ¬ returnsListWhetherPersistFailsOrNot.
Proof.
  intros H.
  destruct (H (sampleCollaborators true) "/w" "/w/test.yaml" None
              [1%positive; 2%positive] sampleWorld eq_refl) as [l Hl].
  vm_compute in Hl. discriminate Hl.
Qed.

(** C5 (amended): given a list of candidates, the reconciler calls the
    persist step exactly once, with the filtered (and possibly stamped)
    list. If that step succeeds the same list is returned; if it fails, its
    error is what the call ends with, unchanged, and no list is returned. *)
Theorem persist_outcome_decides_result (k : Collaborators)
    (folderPath targetPath : string) (runtime_ : option string)
    (candidates : list loc) (w : World) :
  provideDebugConfigurations k = inr (Some candidates) →
  let filtered := List.filter (targetsTemplate k folderPath targetPath (store w)) candidates in
  let st' := stampAll runtime_ filtered (store w) in
  let run := addInitialLaunchConfiguration k folderPath targetPath runtime_ w in
  trace run.1 = trace w ++ [AddDebugConfigurations filtered] ∧
  store run.1 = st' ∧
  (addDebugConfigurations k st' filtered = None → run.2 = Normal (Some filtered)) ∧
  (∀ e, addDebugConfigurations k st' filtered = Some e → run.2 = Throw e).
Proof.
  intros Hp filtered st' run. unfold run.
  rewrite (reconciler_run k folderPath targetPath runtime_ candidates w Hp).
  cbv zeta. fold filtered. fold st'. cbn.
  repeat split.
  - intros ->. reflexivity.
  - intros e ->. reflexivity.
Qed.

Lemma persist_outcome_decides_result_witness :
  (addInitialLaunchConfiguration (sampleCollaborators true) "/w" "/w/test.yaml" None
     sampleWorld).2 = Throw (GenericError "cannot write launch.json").
Proof.
  exact (proj2 (proj2 (proj2 (persist_outcome_decides_result (sampleCollaborators true)
           "/w" "/w/test.yaml" None [1%positive; 2%positive] sampleWorld eq_refl)))
           (GenericError "cannot write launch.json") eq_refl).
Defined.

(** C10: when the provider yields no list, the reconciler returns the
    absent value and leaves the world as it was; in particular the trace
    gains no persist call. The value differs from the empty list returned
    when a list was provided and nothing matched. *)
Theorem no_candidate_list_no_persist (k : Collaborators)
    (folderPath targetPath : string) (runtime_ : option string) (w : World) :
  provideDebugConfigurations k = inr None →
  addInitialLaunchConfiguration k folderPath targetPath runtime_ w = (w, Normal None) ∧
  trace (addInitialLaunchConfiguration k folderPath targetPath runtime_ w).1 = trace w ∧
  (Normal None : Completion (option (list loc))) ≠ Normal (Some []).
Proof.
  intros Hp.
  rewrite (no_candidate_list_run k folderPath targetPath runtime_ w Hp).
  repeat split. discriminate.
Qed.

Lemma no_candidate_list_no_persist_witness :
  addInitialLaunchConfiguration noListCollaborators "/w" "/w/test.yaml" (Some "someruntime")
    sampleWorld = (sampleWorld, Normal None).
Proof.
  exact (proj1 (no_candidate_list_no_persist noListCollaborators "/w" "/w/test.yaml"
                  (Some "someruntime") sampleWorld eq_refl)).
Defined.

(** *** One run, by the answers of the collaborators *)

Lemma provider_failure_run (k : Collaborators) (folderPath targetPath : string)
    (runtime_ : option string) (w : World) (e : Error) :
  provideDebugConfigurations k = inl e →
  addInitialLaunchConfiguration k folderPath targetPath runtime_ w = (w, Throw e).
Proof.
  intros Hp.
  unfold addInitialLaunchConfiguration, liftResult, mbind, M_bind, bind, throw.
  rewrite Hp. reflexivity.
Qed.

(** One run, for each answer of the provider and of the persist step. *)
Lemma reconciler_cases (k : Collaborators) (folderPath targetPath : string)
    (runtime_ : option string) (w : World) :
  addInitialLaunchConfiguration k folderPath targetPath runtime_ w
  = match provideDebugConfigurations k with
    | inl e => (w, Throw e)
    | inr None => (w, Normal None)
    | inr (Some candidates) =>
        let filtered :=
          List.filter (targetsTemplate k folderPath targetPath (store w)) candidates in
        let st' := stampAll runtime_ filtered (store w) in
        (mkWorld st' (samInitState w) (trace w ++ [AddDebugConfigurations filtered]),
         match addDebugConfigurations k st' filtered with
         | Some e => Throw e
         | None => Normal (Some filtered)
         end)
    end.
Proof.
  destruct (provideDebugConfigurations k) as [e|[candidates|]] eqn:Hp.
  - apply provider_failure_run, Hp.
  - apply reconciler_run, Hp.
  - apply no_candidate_list_run, Hp.
Qed.

End ReconcilerFacts.

(** ** Theorems: the creation workflow *)

Module WorkflowFacts.
Import Host Workflow Outcomes.

(** *** Sample runs *)

Example create_completed :
  telemetryAfter (createNewSamApplication sampleEnv)
  = [mkTelemetry (Some Zip) Succeeded complete (Some "nodejs12.x") (Some "1.0.0")].
Proof. vm_compute. reflexivity. Qed.

Example create_cancelled :
  telemetryAfter (createNewSamApplication (withWizard (inr None) sampleEnv))
  = [mkTelemetry None Cancelled userCancelled None (Some "1.0.0")].
Proof. vm_compute. reflexivity. Qed.

Example create_failed :
  telemetryAfter (createNewSamApplication
                    (withInit (inl (UnexpectedExitCodeError 0 (Some 1) EmptyString "boom" None))
                              sampleEnv))
  = [mkTelemetry (Some Zip) Failed error (Some "nodejs12.x") (Some "1.0.0")].
Proof. vm_compute. reflexivity. Qed.

Example resume_without_state :
  telemetryAfter (resumeCreateNewSamApp sampleEnv)
  = [mkTelemetry (Some Zip) Failed error None None].
Proof. vm_compute. reflexivity. Qed.

(** *** Statements that record no telemetry *)

Lemma telemetryOf_app (a b : list Event) :
  telemetryOf (a ++ b) = telemetryOf a ++ telemetryOf b.
Proof. apply omap_app. Qed.

Lemma quiet_ret {A} (a : A) : quiet (ret a : M Run A).
Proof. intros s. exists []. cbn. rewrite app_nil_r. auto. Qed.

Lemma quiet_mret {A} (a : A) : quiet (mret a : M Run A).
Proof. apply quiet_ret. Qed.

Lemma quiet_throw {A} (e : Error) : quiet (throw e : M Run A).
Proof. intros s. exists []. cbn. rewrite app_nil_r. auto. Qed.

Lemma quiet_returnNow {A} : quiet (returnNow : M Run A).
Proof. intros s. exists []. cbn. rewrite app_nil_r. auto. Qed.

Lemma quiet_liftResult {A} (r : Error + A) : quiet (liftResult r : M Run A).
Proof. destruct r; [apply quiet_throw|apply quiet_ret]. Qed.

Lemma quiet_setFrame (f : Frame → Frame) : quiet (setFrame f).
Proof. intros s. exists []. cbn. rewrite app_nil_r. auto. Qed.

Lemma quiet_gets {A} (f : Run → A) : quiet (gets f).
Proof. intros s. exists []. cbn. rewrite app_nil_r. auto. Qed.

Lemma quiet_samInitState (st : option SamInitState) :
  quiet (liftWorld (writeSamInitState st)).
Proof. intros s. exists []. cbn. rewrite app_nil_r. auto. Qed.

Lemma quiet_emit (e : Event) : telemetryOf [e] = [] → quiet (emit e).
Proof. intros He s. exists [e]. cbn. auto. Qed.

Lemma quiet_bind {A B} (m : M Run A) (k : A → M Run B) :
  quiet m → (∀ a, quiet (k a)) → quiet (m ≫= k).
Proof.
  intros Hm Hk s. unfold mbind, M_bind, bind.
  destruct (Hm s) as (evs1 & H1 & Hq1).
  destruct (m s) as [s1 [a| |e]]; cbn in *.
  - destruct (Hk a s1) as (evs2 & H2 & Hq2).
    exists (evs1 ++ evs2). rewrite H2, H1, app_assoc, telemetryOf_app, Hq1, Hq2. auto.
  - eauto.
  - eauto.
Qed.

Lemma quiet_reconciler (k : Reconciler.Collaborators) (folderPath uri : string)
    (runtime_ : option string) :
  quiet (liftWorld (Reconciler.addInitialLaunchConfiguration k folderPath uri runtime_)).
Proof.
  intros s. unfold liftWorld.
  destruct (Reconciler.provideDebugConfigurations k) as [e|[candidates|]] eqn:Hp.
  - exists []. unfold Reconciler.addInitialLaunchConfiguration, liftResult, mbind,
      M_bind, bind, throw. rewrite Hp. cbn. rewrite app_nil_r. auto.
  - rewrite (ReconcilerFacts.reconciler_run k folderPath uri runtime_ candidates
               (world s) Hp).
    eexists. cbn. split; reflexivity.
  - rewrite (ReconcilerFacts.no_candidate_list_run k folderPath uri runtime_ (world s) Hp).
    exists []. cbn. rewrite app_nil_r. auto.
Qed.

Lemma quiet_when (b : bool) (m : M Run unit) : quiet m → quiet (when b m).
Proof. destruct b; [auto|intros _; apply quiet_ret]. Qed.

Lemma quiet_callReconciler (env : Env) (folder : option string) (uri : string)
    (runtime_ : option string) :
  quiet (callReconciler env folder uri runtime_).
Proof. destruct folder; [apply quiet_reconciler|apply quiet_throw]. Qed.

(** Walks through a statement, one construct at a time. *)
Ltac quiet_step :=
  first
    [ apply quiet_bind; [|intros ?]
    | apply quiet_mret
    | apply quiet_ret
    | apply quiet_throw
    | apply quiet_returnNow
    | apply quiet_liftResult
    | apply quiet_setFrame
    | apply quiet_gets
    | apply quiet_samInitState
    | apply quiet_callReconciler
    | apply quiet_when
    | apply quiet_emit; reflexivity
    | match goal with
      | |- quiet (match ?x with _ => _ end) => destruct x
      end ].

Ltac quiet_walk :=
  unfold setResult, setReason, setPackageType, setCreateRuntime, setSamVersion,
    setSamInitState, clearSamInitState;
  repeat quiet_step.

Lemma quiet_getMainUri (env : Env) (config : WizardResponse) :
  quiet (getMainUri env config).
Proof. unfold getMainUri. quiet_walk. Qed.

Lemma quiet_createBody (env : Env) : quiet (createBody env).
Proof.
  unfold createBody. quiet_walk; try apply quiet_getMainUri; quiet_walk.
Qed.

Lemma quiet_createHandler (e : Error) : quiet (createHandler e).
Proof. unfold createHandler. quiet_walk. Qed.

Lemma quiet_resumeBody (env : Env) (state : option SamInitState) :
  quiet (resumeBody env state).
Proof. unfold resumeBody. quiet_walk. Qed.

Lemma quiet_resumeHandler (e : Error) : quiet (resumeHandler e).
Proof. unfold resumeHandler. quiet_walk. Qed.

(** *** [try]/[catch]/[finally] around a quiet body *)

Lemma tryCatchFinally_records_once (body : M Run unit) (handler : Error → M Run unit)
    (finalizer : M Run unit) (telemetry : Frame → SamInitTelemetry) :
  quiet body → (∀ e, quiet (handler e)) →
  (∀ e s, (handler e s).2 = Normal tt) →
  recordsOnce finalizer telemetry →
  ∀ s, ∃ evs s',
    functionBody (tryCatchFinally body handler finalizer) s = (s', Normal tt) ∧
    trace (world s') = trace (world s) ++ evs ++ [RecordSamInit (telemetry (frame s'))] ∧
    telemetryOf evs = [].
Proof.
  intros Hbody Hhandler Hnormal Hfinal s.
  unfold functionBody, tryCatchFinally.
  destruct (Hbody s) as (evs1 & Ht1 & Hq1).
  destruct (body s) as [s1 c1]. cbn in Ht1.
  assert (Hmid : ∃ s2 c2 evs2,
    match c1 with Throw e => handler e s1 | _ => (s1, c1) end = (s2, c2) ∧
    (c2 = Normal tt ∨ c2 = Return) ∧
    trace (world s2) = trace (world s) ++ evs2 ∧ telemetryOf evs2 = []).
  { destruct c1 as [[]| |e].
    - exists s1, (Normal tt), evs1. auto.
    - exists s1, Return, evs1. auto.
    - destruct (Hhandler e s1) as (evs2 & Ht2 & Hq2).
      specialize (Hnormal e s1).
      destruct (handler e s1) as [s2 c2]. cbn in *. subst c2.
      exists s2, (Normal tt), (evs1 ++ evs2).
      rewrite Ht2, Ht1, app_assoc, telemetryOf_app, Hq1, Hq2. auto. }
  destruct Hmid as (s2 & c2 & evs2 & -> & Hc2 & Ht2 & Hq2).
  destruct (Hfinal s2) as (s3 & -> & Hf3 & Ht3).
  exists evs2, s3. rewrite Ht3, Ht2, Hf3, app_assoc.
  destruct Hc2 as [->| ->]; auto.
Qed.

Lemma recordsOnce_create : recordsOnce (recordSamInit createTelemetry) createTelemetry.
Proof. intros s. eexists. split; [reflexivity|]. cbn. auto. Qed.

Lemma recordsOnce_resume (state : option SamInitState) :
  recordsOnce (clearSamInitState;; recordSamInit (resumeTelemetry state))
              (resumeTelemetry state).
Proof. intros s. eexists. split; [reflexivity|]. cbn. auto. Qed.

(** *** Running a workflow symbolically

    Every statement of a run is unfolded; the answer of each collaborator is
    then split into its cases in the order the run consults them. *)

Ltac run_unfold :=
  unfold createNewSamApplication, resumeCreateNewSamApp, functionBody, tryCatchFinally,
    createBody, resumeBody, createHandler, resumeHandler, recordSamInit, getMainUri,
    callReconciler, when,
    setResult, setReason, setPackageType, setCreateRuntime, setSamVersion,
    setSamInitState, clearSamInitState, emit, setFrame, liftWorld, appendEvent,
    writeSamInitState, liftResult, modify, gets, returnNow, throw, ret,
    mbind, mret, M_bind, M_ret, bind, ret.

Ltac run_case :=
  first
    [ rewrite ReconcilerFacts.reconciler_cases; cbv zeta
    | match goal with
      | |- context [match ?x with _ => _ end] =>
          lazymatch x with
          | context [match _ with _ => _ end] => fail
          | _ => destruct x eqn:?
          end
      end ].

Ltac run_simpl :=
  cbn [fst snd frame world store trace samInitState createResult createReason
       packageTypeVar createRuntime samVersion createTelemetry resumeTelemetry
       lambdaPackageType result reason telemetryRuntime version].

Ltac run := run_unfold; cbn; repeat (run_case; run_simpl).

(** *** The variables that the [finally] blocks read

    What each variable holds when a run ends, from the answers of the
    collaborators. *)

Lemma create_frame_fields (env : Env) (s : Run) :
  let f := frame (createNewSamApplication env s).1 in
  outcomeAllowed (createResult f) (createReason f) = true ∧
  samVersion f = (if reachesWizard env
                  then match getSamCliVersion env with inr v => Some v | inl _ => None end
                  else None) ∧
  createRuntime f = (if reachesWizard env
                     then match wizardRun env with
                          | inr (Some config) => Some (configRuntime config)
                          | _ => None
                          end
                     else None) ∧
  (packageTypeVar f = None ∧ (createResult f = Cancelled ∨ createReason f = error) ∨
   ∃ config, wizardRun env = inr (Some config) ∧
             packageTypeVar f = Some (configPackageType config)).
Proof.
  destruct s as [w f]. unfold reachesWizard. run.
  all: split; [reflexivity|split; [reflexivity|split; [reflexivity|]]].
  all: first [ left; split; [reflexivity|first [left; reflexivity|right; reflexivity]]
             | right; eexists; split; [reflexivity|];
               match goal with H : configPackageType _ = _ |- _ => rewrite H end; reflexivity ].
Qed.

Lemma resume_frame_fields (env : Env) (s : Run) :
  let f := frame (resumeCreateNewSamApp env s).1 in
  (createResult f = Succeeded ∧ createReason f = complete ∨
   createResult f = Failed ∧ createReason f = error) ∧
  samVersion f = match uriFile env (samInitState (world s) ≫= path) with
                 | inr uri =>
                     match getWorkspaceFolder env uri with
                     | Some _ => match getSamCliVersion env with
                                 | inr v => Some v
                                 | inl _ => None
                                 end
                     | None => None
                     end
                 | inl _ => None
                 end.
Proof.
  destruct s as [w f]. run.
  all: split; [first [left; split; reflexivity|right; split; reflexivity]|reflexivity].
Qed.

(** C8: every run of [createNewSamApplication] and of
    [resumeCreateNewSamApp], whatever the collaborators do (succeed, fail,
    or, for the wizard, yield nothing), completes normally having recorded
    exactly one telemetry event, as its last effect; calls to the logger, the
    output channel, the notification surface, the telemetry recorder and the
    activation state are taken to complete. The event has five fields:
    package type, result, reason, runtime and SAM CLI version.

    For [createNewSamApplication] they are the final values of
    [lambdaPackageType], [createResult], [reason], [createRuntime] and
    [samVersion]: result and reason form one of the five pairs of
    [outcomeAllowed]; the version is what [getSamCliVersion] returned, absent
    when the run failed before or in that call; the runtime is the one of the
    wizard's answer, absent when the run did not get an answer; the package
    type is the one of the wizard's answer, and is absent only from a run
    that was cancelled or ended in an error.

    For [resumeCreateNewSamApp] the package type is [Image] when the stored
    activation state says so and [Zip] otherwise, also without a stored
    state; the runtime is the one of the stored state; result and reason are
    succeeded and complete, or failed and error; the version is what
    [getSamCliVersion] returned, absent when the run failed or stopped before
    that call or in it. *)
Theorem exactly_one_outcome_event (env : Env) (s : Run) :
  (∃ evs s' t,
     createNewSamApplication env s = (s', Normal tt) ∧
     trace (world s') = trace (world s) ++ evs ++ [RecordSamInit t] ∧
     telemetryOf evs = [] ∧
     telemetryOf (trace (world s')) = telemetryOf (trace (world s)) ++ [t] ∧
     t = mkTelemetry (packageTypeVar (frame s')) (createResult (frame s'))
                     (createReason (frame s')) (createRuntime (frame s'))
                     (samVersion (frame s')) ∧
     outcomeAllowed (result t) (reason t) = true ∧
     version t = (if reachesWizard env
                  then match getSamCliVersion env with inr v => Some v | inl _ => None end
                  else None) ∧
     telemetryRuntime t = (if reachesWizard env
                           then match wizardRun env with
                                | inr (Some config) => Some (configRuntime config)
                                | _ => None
                                end
                           else None) ∧
     (lambdaPackageType t = None ∧ (result t = Cancelled ∨ reason t = error) ∨
      ∃ config, wizardRun env = inr (Some config) ∧
                lambdaPackageType t = Some (configPackageType config))) ∧
  (∃ evs s' t,
     resumeCreateNewSamApp env s = (s', Normal tt) ∧
     trace (world s') = trace (world s) ++ evs ++ [RecordSamInit t] ∧
     telemetryOf evs = [] ∧
     telemetryOf (trace (world s')) = telemetryOf (trace (world s)) ++ [t] ∧
     t = mkTelemetry (Some (match samInitState (world s) with
                            | Some state => if isImage state then Image else Zip
                            | None => Zip
                            end))
                     (createResult (frame s')) (createReason (frame s'))
                     (samInitState (world s) ≫= stateRuntime)
                     (samVersion (frame s')) ∧
     (result t = Succeeded ∧ reason t = complete ∨ result t = Failed ∧ reason t = error) ∧
     version t = match uriFile env (samInitState (world s) ≫= path) with
                 | inr uri =>
                     match getWorkspaceFolder env uri with
                     | Some _ => match getSamCliVersion env with
                                 | inr v => Some v
                                 | inl _ => None
                                 end
                     | None => None
                     end
                 | inl _ => None
                 end).
Proof.
  split.
  - destruct (tryCatchFinally_records_once (createBody env) createHandler
                (recordSamInit createTelemetry) createTelemetry
                (quiet_createBody env) quiet_createHandler (λ _ _, eq_refl)
                recordsOnce_create
                (mkRun (world s) (mkFrame Succeeded unknown None None None)))
      as (evs & s' & Hrun & Htrace & Hq).
    change (createNewSamApplication env s = (s', Normal tt)) in Hrun.
    pose proof (create_frame_fields env s) as Hfields.
    cbv zeta in Hfields. rewrite Hrun in Hfields.
    exists evs, s', (createTelemetry (frame s')).
    split; [exact Hrun|]. split; [exact Htrace|]. split; [exact Hq|].
    split; [rewrite Htrace, !telemetryOf_app, Hq; reflexivity|].
    split; [reflexivity|]. exact Hfields.
  - destruct (tryCatchFinally_records_once
                (resumeBody env (samInitState (world s))) resumeHandler
                (clearSamInitState;; recordSamInit (resumeTelemetry (samInitState (world s))))
                (resumeTelemetry (samInitState (world s)))
                (quiet_resumeBody env _) quiet_resumeHandler (λ _ _, eq_refl)
                (recordsOnce_resume _)
                (mkRun (world s) (mkFrame Succeeded complete None None None)))
      as (evs & s' & Hrun & Htrace & Hq).
    change (resumeCreateNewSamApp env s = (s', Normal tt)) in Hrun.
    pose proof (resume_frame_fields env s) as Hfields.
    cbv zeta in Hfields. rewrite Hrun in Hfields.
    exists evs, s', (resumeTelemetry (samInitState (world s)) (frame s')).
    split; [exact Hrun|]. split; [exact Htrace|]. split; [exact Hq|].
    split; [rewrite Htrace, !telemetryOf_app, Hq; reflexivity|].
    split; [reflexivity|]. exact Hfields.
Qed.

End WorkflowFacts.

(** ** Further properties: [DefaultAWSClientBuilder] *)

Module AwsClientBuilderProps.
Import AwsClientBuilder.

Section Props.
Context {T : Type} (f : ServiceConfigurationOptions → T).
Implicit Types (h : VsCode) (o : option ServiceConfigurationOptions)
               (r : option string) (a : option bool).

(** The factory is applied to the options built for the identity factory, or
    not at all. *)
Lemma factory_applied_to_built h o r a :
  createAndConfigureServiceClient h f o r a
  = match createAndConfigureServiceClient h id o r a with
    | inl e => inl e
    | inr built => inr (f built)
    end.
Proof.
  unfold createAndConfigureServiceClient.
  destruct (credentials (default emptyOptions o)); [reflexivity|].
  destruct (getCredentials h); reflexivity.
Qed.

(** The options of the client, field by field. *)
Lemma built_options h o r a :
  let o0 := default emptyOptions o in
  createAndConfigureServiceClient h id o r a
  = match (match credentials o0 with Some c => inr c | None => getCredentials h end) with
    | inl e => inl e
    | inr c =>
        inr (mkOptions (Some c)
               (if negb (truthy (region o0)) && truthy r then r else region o0)
               (if negb (truthy (customUserAgent o0)) && default true a
                then Some (userAgent h) else customUserAgent o0)
               (if truthy (endpointSetting h) then endpointSetting h else endpoint o0))
    end.
Proof.
  unfold createAndConfigureServiceClient. cbv zeta.
  generalize (default emptyOptions o). intros [c rg ua ep].
  generalize (default true a). intros addUserAgent. cbn.
  destruct c as [c|]; [|destruct (getCredentials h) as [e|c]; [reflexivity|]]; cbn;
    destruct (negb (truthy rg) && truthy r); cbn;
    destruct (negb (truthy ua) && addUserAgent); cbn;
    destruct (truthy (endpointSetting h)); reflexivity.
Qed.

Lemma default_field {A} (p : ServiceConfigurationOptions → option A) o :
  p emptyOptions = None → p (default emptyOptions o) = o ≫= p.
Proof. intros H. destruct o; [reflexivity|exact H]. Qed.

(** X1: Credentials given by the caller are used as they are and the credential
    provider is not consulted: the call succeeds even where the provider
    fails. Without them the provider decides: its failure is the failure of
    the call, before the factory runs, and its credentials are the ones of
    the client. *)
Theorem credentials_from_caller_or_provider h o r a :
  (∀ c, o ≫= credentials = Some c →
        ∃ built, createAndConfigureServiceClient h f o r a = inr (f built) ∧
                 credentials built = Some c) ∧
  (∀ e, o ≫= credentials = None → getCredentials h = inl e →
        createAndConfigureServiceClient h f o r a = inl e) ∧
  (∀ c, o ≫= credentials = None → getCredentials h = inr c →
        ∃ built, createAndConfigureServiceClient h f o r a = inr (f built) ∧
                 credentials built = Some c).
Proof.
  rewrite factory_applied_to_built, built_options. cbv zeta.
  rewrite (default_field credentials o eq_refl).
  split; [|split].
  - intros c ->. eexists. split; reflexivity.
  - intros e -> ->. reflexivity.
  - intros c -> ->. eexists. split; reflexivity.
Qed.

(** X2: A region in the caller's options wins over the [region] argument; the
    argument is used only when the options have no (non-empty) region and the
    argument is itself non-empty. *)
Theorem region_precedence h o r a (built : ServiceConfigurationOptions) :
  createAndConfigureServiceClient h id o r a = inr built →
  (truthy (o ≫= region) = true → region built = o ≫= region) ∧
  (truthy (o ≫= region) = false → truthy r = true → region built = r) ∧
  (truthy (o ≫= region) = false → truthy r = false → region built = o ≫= region).
Proof.
  rewrite built_options. cbv zeta. rewrite (default_field region o eq_refl).
  destruct (match credentials _ with Some c => inr c | None => getCredentials h end);
    [discriminate|].
  intros [= <-]. cbn.
  split; [|split]; intros H1; try intros H2; rewrite H1, ?H2; reflexivity.
Qed.

(** X3: With [addUserAgent = false] the user agent is the caller's, present or
    not; with no non-empty [aws.endpoint] setting the endpoint is the
    caller's, present or not. *)
Theorem untouched_without_switch_or_setting h o r a (built : ServiceConfigurationOptions) :
  createAndConfigureServiceClient h id o r a = inr built →
  (a = Some false → customUserAgent built = o ≫= customUserAgent) ∧
  (truthy (endpointSetting h) = false → endpoint built = o ≫= endpoint).
Proof.
  rewrite built_options. cbv zeta.
  rewrite (default_field customUserAgent o eq_refl), (default_field endpoint o eq_refl).
  destruct (match credentials _ with Some c => inr c | None => getCredentials h end);
    [discriminate|].
  intros [= <-]. cbn. split.
  - intros ->. cbn. rewrite andb_false_r. reflexivity.
  - intros ->. reflexivity.
Qed.

(** X4: Configuring is idempotent: options that came out of the builder go
    through it unchanged. *)
Theorem configure_idempotent h o r a (built : ServiceConfigurationOptions) :
  createAndConfigureServiceClient h id o r a = inr built →
  createAndConfigureServiceClient h id (Some built) r a = inr built.
Proof.
  rewrite !built_options. cbv zeta.
  destruct (match credentials _ with Some c => inr c | None => getCredentials h end)
    as [e|c]; [discriminate|].
  intros [= <-]. cbn.
  f_equal. f_equal.
  - generalize (region (default emptyOptions o)). intros rg.
    destruct (truthy rg) eqn:Hr, (truthy r) eqn:Hp; cbn; rewrite ?Hr, ?Hp; reflexivity.
  - generalize (customUserAgent (default emptyOptions o)). intros ua.
    destruct (truthy ua) eqn:Hu, (default true a); cbn; rewrite ?Hu; reflexivity.
  - destruct (endpointSetting h) as [[|? ?]|]; reflexivity.
Qed.

End Props.

Lemma credentials_from_caller_or_provider_witness :
  createAndConfigureServiceClient
    (mkVsCode "Visual Studio Code" "1.52.0" "1.20.0" None (inl (GenericError "no credentials")))
    id None None None
  = inl (GenericError "no credentials").
Proof.
  exact (proj1 (proj2 (credentials_from_caller_or_provider id
           (mkVsCode "Visual Studio Code" "1.52.0" "1.20.0" None
                     (inl (GenericError "no credentials")))
           None None None)) (GenericError "no credentials") eq_refl eq_refl).
Defined.

Lemma region_precedence_witness :
  region (mkOptions (Some "creds") (Some "us-west-2")
            (Some "AWS-Toolkit-For-VSCode/1.20.0 Visual-Studio-Code/1.52.0")
            (Some "http://localhost:4566"))
  = Some "us-west-2".
Proof.
  exact (proj1 (proj2 (region_precedence sampleHost None (Some "us-west-2") None _ eq_refl))
               eq_refl eq_refl).
Defined.

Lemma untouched_without_switch_or_setting_witness :
  customUserAgent (mkOptions (Some "creds") None None (Some "http://localhost:4566")) = None.
Proof.
  exact (proj1 (untouched_without_switch_or_setting sampleHost None None (Some false) _ eq_refl)
               eq_refl).
Defined.

Lemma configure_idempotent_witness :
  createAndConfigureServiceClient sampleHost id
    (Some (mkOptions (Some "creds") None
             (Some "AWS-Toolkit-For-VSCode/1.20.0 Visual-Studio-Code/1.52.0")
             (Some "http://localhost:4566")))
    None None
  = inr (mkOptions (Some "creds") None
           (Some "AWS-Toolkit-For-VSCode/1.20.0 Visual-Studio-Code/1.52.0")
           (Some "http://localhost:4566")).
Proof. exact (configure_idempotent sampleHost None None None _ eq_refl). Defined.

(** X5: [appName.replace(/\s/g, '-')] keeps the length of the name, leaves a name
    without white space as it is, and applying it twice changes nothing
    more. *)
Theorem replaceWhiteSpace_shape (s : string) :
  String.length (replaceWhiteSpace s) = String.length s ∧
  ((∀ c, In c (list_ascii_of_string s) → isWhiteSpace c = false) →
   replaceWhiteSpace s = s) ∧
  replaceWhiteSpace (replaceWhiteSpace s) = replaceWhiteSpace s.
Proof.
  induction s as [|c s (IH1 & IH2 & IH3)]; [repeat split|].
  cbn [replaceWhiteSpace String.length list_ascii_of_string].
  split; [|split].
  - rewrite IH1. reflexivity.
  - intros H. rewrite (H c) by (left; reflexivity).
    rewrite IH2; [reflexivity|]. intros d Hd. apply H. right. exact Hd.
  - rewrite IH3. destruct (isWhiteSpace c) eqn:E; [reflexivity|].
    rewrite E. reflexivity.
Qed.

Lemma replaceWhiteSpace_shape_witness : replaceWhiteSpace "Code" = "Code".
Proof.
  refine (proj1 (proj2 (replaceWhiteSpace_shape "Code")) _).
  intros c H. cbn in H.
  repeat (destruct H as [<-|H]; [reflexivity|]). destruct H.
Defined.

End AwsClientBuilderProps.

(** ** Further properties: [addInitialLaunchConfiguration] *)

Module ReconcilerProps.
Import Host Reconciler ReconcilerFacts Outcomes.

(** X6: When the debug-configuration provider fails, the reconciler fails with
    the provider's error and has done nothing: no object is written and the
    persist step is not called. *)
Theorem provider_failure_propagates (k : Collaborators) (folderPath targetPath : string)
    (runtime_ : option string) (w : World) (e : Error) :
  provideDebugConfigurations k = inl e →
  addInitialLaunchConfiguration k folderPath targetPath runtime_ w = (w, Throw e).
Proof. apply provider_failure_run. Qed.

Lemma provider_failure_propagates_witness :
  addInitialLaunchConfiguration
    (mkCollaborators pathsEqual (inl (GenericError "no provider")) (λ _ _, None))
    "/w" "/w/test.yaml" (Some "someruntime") sampleWorld
  = (sampleWorld, Throw (GenericError "no provider")).
Proof.
  exact (provider_failure_propagates
           (mkCollaborators pathsEqual (inl (GenericError "no provider")) (λ _ _, None))
           "/w" "/w/test.yaml" (Some "someruntime") sampleWorld
           (GenericError "no provider") eq_refl).
Defined.

(** The world after a call, for each answer of the provider. *)
Lemma reconciler_world (k : Collaborators) (folderPath targetPath : string)
    (runtime_ : option string) (w : World) :
  (addInitialLaunchConfiguration k folderPath targetPath runtime_ w).1
  = match provideDebugConfigurations k with
    | inr (Some candidates) =>
        let filtered :=
          List.filter (targetsTemplate k folderPath targetPath (store w)) candidates in
        mkWorld (stampAll runtime_ filtered (store w)) (samInitState w)
                (trace w ++ [AddDebugConfigurations filtered])
    | _ => w
    end.
Proof.
  destruct (provideDebugConfigurations k) as [e|[candidates|]] eqn:Hp.
  - rewrite (provider_failure_run _ _ _ _ _ e Hp). reflexivity.
  - rewrite (reconciler_run _ _ _ _ candidates _ Hp). reflexivity.
  - rewrite (no_candidate_list_run _ _ _ _ _ Hp). reflexivity.
Qed.

(** X7: Without a runtime the reconciler writes to no object. With or without
    one it leaves the activation state alone and adds to the trace at most
    the one persist call. *)
Theorem heap_untouched_without_runtime (k : Collaborators) (folderPath targetPath : string)
    (runtime_ : option string) (w : World) :
  store (addInitialLaunchConfiguration k folderPath targetPath None w).1 = store w ∧
  samInitState (addInitialLaunchConfiguration k folderPath targetPath runtime_ w).1
    = samInitState w ∧
  (trace (addInitialLaunchConfiguration k folderPath targetPath runtime_ w).1 = trace w ∨
   ∃ l, trace (addInitialLaunchConfiguration k folderPath targetPath runtime_ w).1
        = trace w ++ [AddDebugConfigurations l]).
Proof.
  rewrite !reconciler_world.
  destruct (provideDebugConfigurations k) as [e|[candidates|]]; cbn; eauto.
Qed.

Section Stamped.
Variable r : string.
Implicit Types (st : Store) (c h : loc) (l : list loc).

Lemma setRuntime_same (x : LambdaHolder) : runtime x = Some r → setRuntime r x = x.
Proof. destruct x; cbn. intros ->. reflexivity. Qed.

Lemma setRuntime_twice (x : LambdaHolder) : setRuntime r (setRuntime r x) = setRuntime r x.
Proof. reflexivity. Qed.

(** Stamping a configuration that already carries the runtime changes nothing. *)
Lemma stampRuntime_stamped st c : hasRuntime r st c → stampRuntime r st c = st.
Proof.
  intros (config & h & x & Hc & Hl & Hx & Hr).
  rewrite (stampRuntime_held r st c config h Hc Hl).
  destruct st as [cs hs]; cbn in *. f_equal.
  apply map_eq. intros i. rewrite lookup_alter.
  destruct (decide (i = h)) as [->|Hne].
  - rewrite decide_True by reflexivity. rewrite Hx. cbn.
    rewrite (setRuntime_same x Hr). reflexivity.
  - rewrite decide_False by congruence. reflexivity.
Qed.

Lemma stamps_stamped l st :
  (∀ c, c ∈ l → hasRuntime r st c) → foldl (stampRuntime r) st l = st.
Proof.
  induction l as [|a l IH]; intros H; cbn; [reflexivity|].
  rewrite (stampRuntime_stamped st a) by (apply H; left).
  apply IH. intros c Hc. apply H. right. exact Hc.
Qed.

Lemma stamps_wellFormed l st (cs : list loc) :
  wellFormed st cs → wellFormed (foldl (stampRuntime r) st l) cs.
Proof.
  revert st. induction l as [|a l IH]; intros st H; cbn; [exact H|].
  apply IH, stampRuntime_wellFormed, H.
Qed.

(** A holder ends up as it was or with its runtime replaced. *)
Lemma stamps_holders l st h x :
  holders st !! h = Some x →
  ∃ x', holders (foldl (stampRuntime r) st l) !! h = Some x' ∧
        (x' = x ∨ x' = setRuntime r x).
Proof.
  revert st x. induction l as [|a l IH]; intros st x Hx; cbn; [eauto|].
  destruct (stampRuntime_holders r st a h x Hx) as (x1 & Hx1 & Hcase).
  destruct (IH _ _ Hx1) as (x' & Hx' & Hcase').
  exists x'. split; [exact Hx'|].
  destruct Hcase as [->|[-> _]]; [exact Hcase'|].
  right. destruct Hcase' as [->| ->]; reflexivity.
Qed.

Lemma stampRuntime_all_held st c :
  (∀ config, configs st !! c = Some config → lambda config ≠ None) →
  configs (stampRuntime r st c) = configs st ∧
  dom (holders (stampRuntime r st c)) = dom (holders st).
Proof.
  intros H. destruct (configs st !! c) as [config|] eqn:Hc.
  - destruct (lambda config) as [h|] eqn:Hl; [|destruct (H config eq_refl Hl)].
    rewrite (stampRuntime_held r st c config h Hc Hl). cbn.
    split; [reflexivity|]. apply dom_alter_L.
  - rewrite (stampRuntime_unallocated r st c Hc). auto.
Qed.

Lemma stamps_all_held l st :
  (∀ c config, c ∈ l → configs st !! c = Some config → lambda config ≠ None) →
  configs (foldl (stampRuntime r) st l) = configs st ∧
  dom (holders (foldl (stampRuntime r) st l)) = dom (holders st).
Proof.
  revert st. induction l as [|a l IH]; intros st H; cbn; [auto|].
  destruct (stampRuntime_all_held st a) as [Hc Hd].
  { intros config. apply H. left. }
  destruct (IH (stampRuntime r st a)) as [Hc' Hd'].
  { intros c config Hin. rewrite Hc. apply H. right. exact Hin. }
  rewrite Hc', Hd', Hc, Hd. auto.
Qed.

End Stamped.

(** X8: Calling the reconciler again with the same runtime, on the world the
    first call left, writes nothing more: the heap stays as it is, the same
    list is selected and handed to the persist step, and the call ends as the
    first one did. *)
Theorem reconcile_again_changes_nothing (k : Collaborators)
    (folderPath targetPath r : string) (candidates : list loc) (w : World) :
  provideDebugConfigurations k = inr (Some candidates) →
  wellFormed (store w) candidates →
  let first := addInitialLaunchConfiguration k folderPath targetPath (Some r) w in
  let second := addInitialLaunchConfiguration k folderPath targetPath (Some r) first.1 in
  store second.1 = store first.1 ∧
  second.2 = first.2 ∧
  ∃ filtered, trace second.1
              = trace w ++ [AddDebugConfigurations filtered; AddDebugConfigurations filtered].
Proof.
  intros Hp Hwf first second. unfold second, first.
  rewrite (reconciler_run k folderPath targetPath (Some r) candidates w Hp).
  cbv zeta. cbn [fst].
  rewrite (reconciler_run k folderPath targetPath (Some r) candidates _ Hp).
  cbv zeta. cbn [fst snd store trace stampAll].
  set (filtered := List.filter (targetsTemplate k folderPath targetPath (store w)) candidates).
  set (st1 := foldl (stampRuntime r) (store w) filtered).
  assert (Hsame : List.filter (targetsTemplate k folderPath targetPath st1) candidates
                  = filtered).
  { apply List.filter_ext. intros c. apply stamps_targetsTemplate. }
  rewrite Hsame.
  assert (Hid : foldl (stampRuntime r) st1 filtered = st1).
  { apply stamps_stamped. intros c Hc.
    apply stamps_hasRuntime; [apply wellFormed_filter, Hwf|exact Hc]. }
  rewrite Hid. split; [reflexivity|]. split; [reflexivity|].
  exists filtered. rewrite <- app_assoc. reflexivity.
Qed.

Lemma reconcile_again_changes_nothing_witness :
  let first := addInitialLaunchConfiguration (sampleCollaborators false) "/w" "/w/test.yaml"
                 (Some "someruntime") sampleWorld in
  store (addInitialLaunchConfiguration (sampleCollaborators false) "/w" "/w/test.yaml"
           (Some "someruntime") first.1).1
  = store first.1.
Proof.
  exact (proj1 (reconcile_again_changes_nothing (sampleCollaborators false)
                  "/w" "/w/test.yaml" "someruntime" [1%positive; 2%positive] sampleWorld
                  eq_refl sampleStore_wellFormed)).
Defined.

(** X9: A filtered configuration that already holds an object under [lambda]
    keeps that object; its runtime is overwritten and its other settings
    (timeout, memory) are as before. *)
Theorem existing_holder_keeps_other_settings (k : Collaborators)
    (folderPath targetPath r : string) (candidates : list loc) (w : World)
    (c h : loc) (config : DebugConfiguration) (x : LambdaHolder) :
  provideDebugConfigurations k = inr (Some candidates) →
  wellFormed (store w) candidates →
  c ∈ List.filter (targetsTemplate k folderPath targetPath (store w)) candidates →
  configs (store w) !! c = Some config →
  lambda config = Some h →
  holders (store w) !! h = Some x →
  let w' := (addInitialLaunchConfiguration k folderPath targetPath (Some r) w).1 in
  configs (store w') !! c = Some config ∧
  holders (store w') !! h = Some (mkHolder (Some r) (timeoutSec x) (memoryMb x)).
Proof.
  intros Hp Hwf Hin Hc Hl Hx w'.
  assert (Hst : store w' = foldl (stampRuntime r) (store w)
                  (List.filter (targetsTemplate k folderPath targetPath (store w)) candidates)).
  { unfold w'. rewrite reconciler_world, Hp. reflexivity. }
  rewrite Hst. clear Hst w'.
  set (filtered := List.filter _ candidates) in *.
  destruct (stamps_hasRuntime r filtered (store w) c (wellFormed_filter _ _ _ Hwf) Hin)
    as (config' & h' & x' & Hc' & Hl' & Hx' & Hr').
  pose proof (stamps_configs r filtered (store w) c) as Hev. rewrite Hc in Hev.
  destruct Hev as (config'' & Hc'' & Hev).
  assert (config'' = config') as -> by congruence.
  assert (config' = config) as ->.
  { destruct Hev as [?|[Hnone _]]; [assumption|congruence]. }
  assert (h' = h) as -> by congruence.
  split; [exact Hc'|].
  destruct (stamps_holders r filtered (store w) h x Hx) as (x'' & Hx'' & Hcase).
  assert (x'' = x') as -> by congruence.
  rewrite Hx'. f_equal.
  destruct Hcase as [->| ->]; [|reflexivity].
  destruct x as [rt ts mm]; cbn in *. congruence.
Qed.

Lemma tunedStore_wellFormed : wellFormed tunedStore [1%positive].
Proof.
  split.
  - intros c Hc. apply elem_of_cons in Hc as [->|Hc]; [vm_compute; eauto|inversion Hc].
  - intros c config h Hc Hl. unfold tunedStore in Hc. cbn in Hc.
    destruct (decide (c = 1%positive)) as [->|H1].
    + rewrite lookup_insert_eq in Hc. injection Hc as <-. cbn in Hl.
      injection Hl as <-. vm_compute. eauto.
    + rewrite lookup_insert_ne in Hc by congruence.
      rewrite lookup_empty in Hc. discriminate Hc.
Qed.

Lemma existing_holder_keeps_other_settings_witness :
  holders (store (addInitialLaunchConfiguration
                    (mkCollaborators pathsEqual (inr (Some [1%positive])) (λ _ _, None))
                    "/w" "/w/test.yaml" (Some "python3.8")
                    (mkWorld tunedStore None [])).1) !! 5%positive
  = Some (mkHolder (Some "python3.8") (Some 30) (Some 128)).
Proof.
  refine (proj2 (existing_holder_keeps_other_settings
            (mkCollaborators pathsEqual (inr (Some [1%positive])) (λ _ _, None))
            "/w" "/w/test.yaml" "python3.8" [1%positive] (mkWorld tunedStore None [])
            1%positive 5%positive
            (mkConfig "aws-sam" "name" "direct-invoke"
               (TemplateTarget "${workspaceFolder}/test.yaml" "resource") (Some 5%positive))
            (mkHolder (Some "nodejs12.x") (Some 30) (Some 128))
            eq_refl tunedStore_wellFormed _ eq_refl eq_refl eq_refl)).
  vm_compute. left.
Defined.

(** X10: The reconciler keeps the heap well-formed and removes nothing from it:
    the configuration objects are the same ones, and every holder that was
    there still is. *)
Theorem heap_stays_wellFormed (k : Collaborators) (folderPath targetPath : string)
    (runtime_ : option string) (w : World) (l : list loc) :
  wellFormed (store w) l →
  let w' := (addInitialLaunchConfiguration k folderPath targetPath runtime_ w).1 in
  wellFormed (store w') l ∧
  (∀ c, is_Some (configs (store w') !! c) ↔ is_Some (configs (store w) !! c)) ∧
  (∀ h, is_Some (holders (store w) !! h) → is_Some (holders (store w') !! h)).
Proof.
  intros Hwf w'. unfold w'. rewrite reconciler_world.
  destruct (provideDebugConfigurations k) as [e|[candidates|]];
    [tauto| |tauto].
  cbv zeta. cbn [store].
  destruct runtime_ as [r|]; [|cbn; tauto]. cbn [stampAll].
  set (filtered := List.filter _ candidates).
  split; [apply stamps_wellFormed, Hwf|]. split.
  - intros c. pose proof (stamps_configs r filtered (store w) c) as H.
    destruct (configs (store w) !! c) as [config|].
    + destruct H as (config' & -> & _). split; eauto.
    + rewrite H. tauto.
  - intros h [x Hx].
    destruct (stamps_holders r filtered (store w) h x Hx) as (x' & -> & _). eauto.
Qed.

Lemma heap_stays_wellFormed_witness :
  wellFormed (store (addInitialLaunchConfiguration (sampleCollaborators false)
                       "/w" "/w/test.yaml" (Some "someruntime") sampleWorld).1)
             [1%positive; 2%positive].
Proof.
  exact (proj1 (heap_stays_wellFormed (sampleCollaborators false) "/w" "/w/test.yaml"
                  (Some "someruntime") sampleWorld [1%positive; 2%positive]
                  sampleStore_wellFormed)).
Defined.

(** X11: An object is created only for a filtered configuration that holds none:
    when every filtered configuration already holds one, the configuration
    objects are exactly as before and no holder is added. *)
Theorem no_holder_created_when_all_hold (k : Collaborators)
    (folderPath targetPath : string) (runtime_ : option string)
    (candidates : list loc) (w : World) :
  provideDebugConfigurations k = inr (Some candidates) →
  (∀ c config,
     c ∈ List.filter (targetsTemplate k folderPath targetPath (store w)) candidates →
     configs (store w) !! c = Some config → lambda config ≠ None) →
  let w' := (addInitialLaunchConfiguration k folderPath targetPath runtime_ w).1 in
  configs (store w') = configs (store w) ∧
  dom (holders (store w')) = dom (holders (store w)).
Proof.
  intros Hp Hheld w'. unfold w'. rewrite reconciler_world, Hp. cbv zeta. cbn [store].
  destruct runtime_ as [r|]; [|cbn; auto]. cbn [stampAll].
  apply stamps_all_held. exact Hheld.
Qed.

Lemma no_holder_created_when_all_hold_witness :
  configs (store (addInitialLaunchConfiguration
                    (mkCollaborators pathsEqual (inr (Some [1%positive])) (λ _ _, None))
                    "/w" "/w/test.yaml" (Some "python3.8")
                    (mkWorld tunedStore None [])).1)
  = configs tunedStore.
Proof.
  refine (proj1 (no_holder_created_when_all_hold
            (mkCollaborators pathsEqual (inr (Some [1%positive])) (λ _ _, None))
            "/w" "/w/test.yaml" (Some "python3.8") [1%positive]
            (mkWorld tunedStore None []) eq_refl _)).
  intros c config Hin. vm_compute in Hin.
  apply elem_of_cons in Hin as [->|Hin]; [|inversion Hin].
  cbn. unfold tunedStore. cbn. rewrite lookup_insert_eq. intros [= <-]. discriminate.
Defined.

End ReconcilerProps.

(** ** Further properties: the creation workflow *)

Module WorkflowProps.
Import Host Workflow Outcomes WorkflowFacts.

Lemma addedEvents_app (tr evs : list Event) : addedEvents tr (tr ++ evs) = evs.
Proof. unfold addedEvents. apply drop_app_length. Qed.

Ltac leaf := rewrite <- ?app_assoc; cbn [app]; rewrite ?addedEvents_app; cbn.

Ltac in_cases H :=
  repeat (destruct H as [H|H]; [try discriminate H|]); try (exfalso; exact H).

(** *** [createNewSamApplication] *)

(** X12: The telemetry event is the last thing a run does, and its result and
    reason are one of: succeeded and complete, succeeded and file not found,
    failed and file not found, failed and error, cancelled and cancelled by
    the user. In particular the reason is never left at [unknown]. *)
Theorem create_outcome_pairs (env : Env) (s : Run) :
  let s' := (createNewSamApplication env s).1 in
  let t := createTelemetry (frame s') in
  last (trace (world s')) = Some (RecordSamInit t) ∧
  outcomeAllowed (result t) (reason t) = true.
Proof.
  destruct s as [w f]. run. all: rewrite last_snoc; split; reflexivity.
Qed.

(** X13: A run that reports success reports what the wizard returned: its package
    type and runtime, with the version the SAM CLI gave. A package type is
    never reported without a runtime, nor a runtime without a version. *)
Theorem create_telemetry_reports_choices (env : Env) (s : Run) :
  let t := createTelemetry (frame (createNewSamApplication env s).1) in
  (result t = Succeeded →
   ∃ config v, wizardRun env = inr (Some config) ∧ getSamCliVersion env = inr v ∧
               lambdaPackageType t = Some (configPackageType config) ∧
               telemetryRuntime t = Some (configRuntime config) ∧
               version t = Some v) ∧
  (lambdaPackageType t ≠ None → telemetryRuntime t ≠ None ∧ version t ≠ None) ∧
  (telemetryRuntime t ≠ None → version t ≠ None).
Proof.
  destruct s as [w f]. run.
  all: (split; [|split; [|intros; discriminate || congruence]]).
  all: try (intros ?; discriminate).
  all: try (intros ?; congruence).
  all: try (intros ?; split; discriminate).
  all: try (intros _; eexists _, _; repeat split; try eassumption; try reflexivity;
            match goal with H : configPackageType _ = _ |- _ => rewrite H end; reflexivity).
Qed.

Lemma create_telemetry_reports_choices_witness :
  telemetryRuntime (createTelemetry
    (frame (createNewSamApplication sampleEnv initialRun).1))
  ≠ None.
Proof.
  refine (proj1 (proj1 (proj2 (create_telemetry_reports_choices
            sampleEnv initialRun)) _)).
  vm_compute. discriminate.
Defined.

(** X14: A run is reported as cancelled exactly when validation, credentials,
    regions and version succeeded and the wizard returned nothing. Such a run
    does nothing but record the event: no object, no activation state, no
    notification, no log. *)
Theorem create_cancelled_iff (env : Env) (s : Run) :
  let s' := (createNewSamApplication env s).1 in
  (createResult (frame s') = Cancelled ↔
   reachesWizard env = true ∧ wizardRun env = inr None) ∧
  (createResult (frame s') = Cancelled →
   ∃ v, getSamCliVersion env = inr v ∧
        addedEvents (trace (world s)) (trace (world s'))
        = [RecordSamInit (mkTelemetry None Cancelled userCancelled None (Some v))] ∧
        store (world s') = store (world s) ∧
        samInitState (world s') = samInitState (world s)).
Proof.
  destruct s as [w f]. unfold reachesWizard. run.
  all: leaf.
  all: split; [split; [intros ?; try discriminate|intros [? ?]; try discriminate; try congruence]
              |intros ?; try discriminate].
  all: try (split; reflexivity).
  all: try (eexists; repeat split; reflexivity).
Qed.

Lemma create_cancelled_iff_witness :
  createResult (frame (createNewSamApplication
                         (sampleEnvWith (inr tt) (inr None) true true (Some "/w"))
                         initialRun).1)
  = Cancelled.
Proof.
  exact (proj2 (proj1 (create_cancelled_iff
                         (sampleEnvWith (inr tt) (inr None) true true (Some "/w"))
                         initialRun))
               (conj eq_refl eq_refl)).
Defined.

(** X15: The activation state that a run stores for a reload is never left
    behind: at the end it is cleared, or, where the run stopped before storing
    it (cancelled, or README.md not found), it is as the run found it and no
    object was written. *)
Theorem create_leaves_no_resume_state (env : Env) (s : Run) :
  let s' := (createNewSamApplication env s).1 in
  samInitState (world s') = None ∨
  (samInitState (world s') = samInitState (world s) ∧
   store (world s') = store (world s) ∧
   (createReason (frame s') = userCancelled ∨
    (createResult (frame s') = Succeeded ∧ createReason (frame s') = fileNotFound))).
Proof.
  destruct s as [w f]. run.
  all: first [left; reflexivity | right; repeat split; auto].
Qed.

(** X16: An invalid SAM CLI ends the run at once: the error is reported on the
    output channel and in the log with its message, the activation state is
    cleared, and the event says failed, error, with no package type, runtime
    or version. *)
Theorem create_fails_fast_on_invalid_cli (env : Env) (s : Run) (e : Error) :
  detectValidSamCli env = inl e →
  createNewSamApplication env s
  = (mkRun (mkWorld (store (world s)) None
              (trace (world s)
               ++ [OutputChannelShown;
                   LogError "AWS.samcli.initWizard.general.error";
                   LogError (String.append "Error creating new SAM Application: "
                                           (errorMessage e));
                   RecordSamInit (mkTelemetry None Failed error None None)]))
           (mkFrame Failed error None None None),
     Normal tt).
Proof.
  intros H. destruct s as [w f]. run_unfold. cbn. rewrite H. cbn.
  rewrite <- !app_assoc. reflexivity.
Qed.

Lemma create_fails_fast_on_invalid_cli_witness :
  (createNewSamApplication
     (sampleEnvWith (inl (GenericError "SAM CLI not found")) (inr None) true true None)
     initialRun).2
  = Normal tt.
Proof.
  exact (f_equal snd (create_fails_fast_on_invalid_cli
           (sampleEnvWith (inl (GenericError "SAM CLI not found")) (inr None) true true None)
           initialRun (GenericError "SAM CLI not found") eq_refl)).
Defined.

(** X17: The reason is [error] exactly when the run has reported an error (output
    channel shown, log written); then the result is failed, the activation
    state is cleared, and the report is the output channel followed by the
    two log entries. *)
Theorem create_error_iff_reported (env : Env) (s : Run) :
  let s' := (createNewSamApplication env s).1 in
  let evs := addedEvents (trace (world s)) (trace (world s')) in
  (createReason (frame s') = error ↔ List.existsb isErrorReport evs = true) ∧
  (createReason (frame s') = error →
   createResult (frame s') = Failed ∧
   samInitState (world s') = None ∧
   ∃ msg, List.filter isErrorReport evs
          = [OutputChannelShown; LogError "AWS.samcli.initWizard.general.error"; LogError msg]).
Proof.
  destruct s as [w f]. run.
  all: leaf.
  all: split; [split; intros ?; (discriminate || reflexivity)|intros ?; try discriminate].
  all: repeat split; eexists; reflexivity.
Qed.

Lemma create_error_iff_reported_witness :
  createResult (frame (createNewSamApplication
     (withInit (inl (UnexpectedExitCodeError 0 (Some 1) EmptyString "boom" None))
                             sampleEnv)
     initialRun).1)
  = Failed.
Proof.
  refine (proj1 (proj2 (create_error_iff_reported
     (withInit (inl (UnexpectedExitCodeError 0 (Some 1) EmptyString "boom" None))
                             sampleEnv)
     initialRun) _)).
  vm_compute. reflexivity.
Defined.

(** X18: The reconciler's persist step runs at most once in a run, and not at all,
    with no object written, unless the template registry came to know the
    new file. *)
Theorem create_reconciles_only_when_registered (env : Env) (s : Run) :
  let s' := (createNewSamApplication env s).1 in
  let evs := addedEvents (trace (world s)) (trace (world s')) in
  (List.length (persistCalls evs) ≤ 1)%nat ∧
  ((∀ uri, templateRegistered env uri ≠ inr true) →
   persistCalls evs = [] ∧ store (world s') = store (world s)).
Proof.
  destruct s as [w f]. run.
  all: leaf.
  all: (split; [lia|]).
  all: try (intros _; split; reflexivity).
  all: intros H; exfalso; eapply H; eassumption.
Qed.

Lemma create_reconciles_only_when_registered_witness :
  store (world (createNewSamApplication
                  (sampleEnvWith (inr tt) (inr (Some sampleConfig))
                                 true false (Some "/w"))
                  initialRun).1)
  = store (world initialRun).
Proof.
  refine (proj2 (proj2 (create_reconciles_only_when_registered
            (sampleEnvWith (inr tt) (inr (Some sampleConfig))
                           true false (Some "/w"))
            initialRun) _)).
  intros uri. cbn. discriminate.
Defined.

(** X19: Notifications. The completion message is shown only after a non-empty
    list went to the persist step; the "failed to generate launch
    configurations" warning only in a failed run that never called the
    persist step, and always when the run ends failed with file not found. A
    reconciliation that selects nothing shows neither. *)
Theorem create_notifications (env : Env) (s : Run) :
  let s' := (createNewSamApplication env s).1 in
  let evs := addedEvents (trace (world s)) (trace (world s')) in
  let keys := notificationKeys evs in
  (In "AWS.samcli.initWizard.completionMessage" keys →
   ∃ c l, persistCalls evs = [c :: l]) ∧
  (In "AWS.samcli.initWizard.launchConfigFail" keys →
   createResult (frame s') = Failed ∧ persistCalls evs = []) ∧
  (createResult (frame s') = Failed → createReason (frame s') = fileNotFound →
   In "AWS.samcli.initWizard.launchConfigFail" keys) ∧
  (persistCalls evs = [[]] →
   ¬ In "AWS.samcli.initWizard.completionMessage" keys ∧
   ¬ In "AWS.samcli.initWizard.launchConfigFail" keys).
Proof.
  destruct s as [w f]. run.
  all: leaf.
  all: repeat match goal with
         | H : List.filter _ _ = _ |- _ => rewrite ?H; clear H
         end.
  all: cbn.
  all: split; [|split; [|split]].
  all: try (intros H; in_cases H; first [eexists _, _; reflexivity | split; reflexivity]).
  all: try (intros H1 H2; first [discriminate H1 | discriminate H2
                                | repeat (first [left; reflexivity | right])]).
  all: intros H; first [discriminate H | split; intros H0; in_cases H0].
Qed.

Lemma create_notifications_witness :
  In "AWS.samcli.initWizard.launchConfigFail"
     (notificationKeys
        (addedEvents (trace (world initialRun))
           (trace (world (createNewSamApplication
                            (sampleEnvWith (inr tt) (inr (Some sampleConfig))
                                           true false (Some "/w"))
                            initialRun).1)))).
Proof.
  refine (proj1 (proj2 (proj2 (create_notifications
            (sampleEnvWith (inr tt) (inr (Some sampleConfig))
                           true false (Some "/w"))
            initialRun))) _ _); vm_compute; reflexivity.
Defined.

(** X20: A run that reports success with reason file not found is one where the
    project was created but README.md is missing, at the path that
    [path.resolve] gives for the location, the name and [README.md] of the
    wizard's answer: it has shown that warning and recorded the event, and
    nothing else; the workspace is not touched and no activation state is
    stored. *)
Theorem create_readme_missing (env : Env) (s : Run) :
  let s' := (createNewSamApplication env s).1 in
  createResult (frame s') = Succeeded → createReason (frame s') = fileNotFound →
  ∃ config,
    wizardRun env = inr (Some config) ∧
    fileExists env (pathResolve env [location config; configName config; "README.md"])
      = inr false ∧
    addedEvents (trace (world s)) (trace (world s'))
    = [WarningMessageShown "AWS.samcli.initWizard.source.error.notFound";
       RecordSamInit (createTelemetry (frame s'))] ∧
    store (world s') = store (world s) ∧
    samInitState (world s') = samInitState (world s).
Proof.
  destruct s as [w f]. run.
  all: leaf.
  all: intros H1 H2; try discriminate H1; try discriminate H2.
  all: eexists; repeat split; try eassumption; reflexivity.
Qed.

Lemma create_readme_missing_witness :
  ∃ config,
    wizardRun (sampleEnvWith (inr tt) (inr (Some sampleConfig))
                             false true (Some "/w")) = inr (Some config) ∧
    fileExists (sampleEnvWith (inr tt) (inr (Some sampleConfig))
                              false true (Some "/w"))
               (pathResolve (sampleEnvWith (inr tt) (inr (Some sampleConfig))
                                           false true (Some "/w"))
                            [location config; configName config; "README.md"])
    = inr false.
Proof.
  destruct (create_readme_missing
              (sampleEnvWith (inr tt) (inr (Some sampleConfig))
                             false true (Some "/w"))
              initialRun eq_refl eq_refl) as (config & H1 & H2 & _).
  exists config. split; [exact H1|exact H2].
Defined.

(** X24: A run consults [runSamCliInit] only on arguments derived from the
    wizard's answer: two [runSamCliInit] that agree on the arguments shaped
    for that answer give the same run. *)
Theorem create_init_arguments_shaped (env : Env) (s : Run)
    (g g' : SamCliInitArgs → Error + unit) :
  (∀ config a, wizardRun env = inr (Some config) → initArgumentsShaped config a = true →
               g a = g' a) →
  createNewSamApplication (withRunSamCliInit g env) s
  = createNewSamApplication (withRunSamCliInit g' env) s.
Proof.
  intros H. destruct s as [w f].
  run_unfold. cbn.
  repeat (run_case; run_simpl).
  all: try reflexivity.
  all: try match goal with
       | Hg : (∀ config a, _ → initArgumentsShaped config a = true → ?g1 a = ?g2 a),
         H1 : ?g1 ?a = _, H2 : ?g2 ?a = _, Hw : wizardRun _ = inr (Some ?c) |- _ =>
           let E := fresh in
           assert (E : g1 a = g2 a) by
             (apply (Hg c); [first [exact Hw | reflexivity]|];
              unfold initArgumentsShaped; cbn;
              repeat match goal with Hx : _ = _ |- _ => rewrite Hx end; cbn;
              rewrite ?String.eqb_refl; cbn;
              try reflexivity; destruct (configTemplate c); first [reflexivity|discriminate]);
           rewrite H1, H2 in E
       end.
  all: repeat match goal with u : unit |- _ => destruct u end.
  all: congruence.
Qed.

Lemma create_init_arguments_shaped_witness :
  createNewSamApplication (withRunSamCliInit (λ _, inr tt) sampleEnv) initialRun
  = createNewSamApplication (withRunSamCliInit (acceptsShaped sampleConfig) sampleEnv)
                            initialRun.
Proof.
  refine (create_init_arguments_shaped sampleEnv initialRun (λ _, inr tt)
            (acceptsShaped sampleConfig) _).
  intros config a Hw Hs. injection Hw as <-.
  unfold acceptsShaped. rewrite Hs. reflexivity.
Defined.

(** X25: After a run, every launch configuration that was handed to the persist
    step carries the runtime chosen in the wizard: the workflow always passes
    the runtime on, for Zip as for image applications. *)
Theorem create_stamps_chosen_runtime (env : Env) (s : Run) (config : WizardResponse)
    (candidates : list loc) :
  wizardRun env = inr (Some config) →
  Reconciler.provideDebugConfigurations (collaborators env) = inr (Some candidates) →
  Reconciler.wellFormed (store (world s)) candidates →
  let s' := (createNewSamApplication env s).1 in
  ∀ l c, In l (persistCalls (addedEvents (trace (world s)) (trace (world s')))) →
         c ∈ l →
         Reconciler.hasRuntime (configRuntime config) (store (world s')) c.
Proof.
  intros Hw Hp Hwf. destruct s as [w f]. cbn in Hwf.
  run.
  all: repeat match goal with
         | H : List.filter _ _ = _ |- _ => rewrite <- H in *; clear H
         end.
  all: rewrite <- ?app_assoc; cbn [app]; rewrite ?addedEvents_app;
       cbn -[Reconciler.stampAll].
  all: intros persisted member Hin Hc; in_cases Hin.
  all: simplify_eq.
  all: cbn [Reconciler.stampAll].
  all: apply ReconcilerFacts.stamps_hasRuntime;
         [apply ReconcilerFacts.wellFormed_filter; assumption|assumption].
Qed.

Lemma readmeStore_wellFormed : Reconciler.wellFormed readmeStore [1%positive].
Proof.
  split.
  - intros c Hc. apply elem_of_cons in Hc as [->|Hc]; [vm_compute; eauto|inversion Hc].
  - intros c config h Hc Hl. unfold readmeStore in Hc. cbn in Hc.
    destruct (decide (c = 1%positive)) as [->|H1].
    + rewrite lookup_insert_eq in Hc. injection Hc as <-. discriminate Hl.
    + rewrite lookup_insert_ne in Hc by congruence.
      rewrite lookup_empty in Hc. discriminate Hc.
Qed.

Lemma create_stamps_chosen_runtime_witness :
  Reconciler.hasRuntime "nodejs12.x"
    (store (world (createNewSamApplication readmeEnv readmeRun).1)) 1%positive.
Proof.
  refine (create_stamps_chosen_runtime readmeEnv readmeRun sampleConfig [1%positive]
            eq_refl eq_refl readmeStore_wellFormed [1%positive] 1%positive _ _).
  - vm_compute. left. reflexivity.
  - left.
Defined.

(** *** [resumeCreateNewSamApp] *)

(** X21: Resuming always clears the activation state and ends by recording the
    event, which says succeeded and complete, or failed and error. A run that
    succeeded has reported no error and shown no notification; the document
    was shown, the file is in a workspace folder, and the event carries the
    SAM CLI version. *)
Theorem resume_outcome (env : Env) (s : Run) :
  let s' := (resumeCreateNewSamApp env s).1 in
  let t := resumeTelemetry (samInitState (world s)) (frame s') in
  samInitState (world s') = None ∧
  last (trace (world s')) = Some (RecordSamInit t) ∧
  ((result t = Succeeded ∧ reason t = complete) ∨ (result t = Failed ∧ reason t = error)) ∧
  (result t = Succeeded →
   List.existsb isErrorReport (addedEvents (trace (world s)) (trace (world s'))) = false ∧
   notificationKeys (addedEvents (trace (world s)) (trace (world s'))) = [] ∧
   showTextDocument env = inr tt ∧
   ∃ uri folder v,
     uriFile env (samInitState (world s) ≫= path) = inr uri ∧
     getWorkspaceFolder env uri = Some folder ∧
     getSamCliVersion env = inr v ∧
     version t = Some v).
Proof.
  destruct s as [w f]. run.
  all: rewrite ?last_snoc.
  all: split; [reflexivity|split; [reflexivity|split; [auto|]]].
  all: intros H; try discriminate H.
  all: leaf.
  all: split; [reflexivity|split; [reflexivity|split]].
  all: try match goal with |- inr ?u = inr () => destruct u; reflexivity end.
  all: do 3 eexists; repeat split; try eassumption; reflexivity.
Qed.

Lemma resume_outcome_witness :
  List.existsb isErrorReport
    (addedEvents (trace (world (resumingRun true)))
       (trace (world (resumeCreateNewSamApp sampleEnv (resumingRun true)).1)))
  = false.
Proof.
  refine (proj1 (proj2 (proj2 (proj2 (resume_outcome sampleEnv
                                        (resumingRun true)))) _)).
  vm_compute. reflexivity.
Defined.

(** X22: When the stored path is in no workspace folder, resuming shows the one
    error message and records failed, error, without a version; nothing is
    logged, since the [catch] block is not entered, and no object is
    written. *)
Theorem resume_outside_workspace (env : Env) (s : Run) (uri : string) :
  uriFile env (samInitState (world s) ≫= path) = inr uri →
  getWorkspaceFolder env uri = None →
  resumeCreateNewSamApp env s
  = (mkRun (mkWorld (store (world s)) None
              (trace (world s)
               ++ [ErrorMessageShown "AWS.samcli.initWizard.source.error.notInWorkspace";
                   RecordSamInit (resumeTelemetry (samInitState (world s))
                                    (mkFrame Failed error None None None))]))
           (mkFrame Failed error None None None),
     Normal tt).
Proof.
  intros H1 H2. destruct s as [w f]. cbn in H1. unfold mbind in H1. run.
  all: simplify_eq.
  rewrite <- !app_assoc. reflexivity.
Qed.

Lemma resume_outside_workspace_witness :
  (resumeCreateNewSamApp
     (sampleEnvWith (inr tt) (inr None) true true None) (resumingRun true)).2
  = Normal tt.
Proof.
  exact (f_equal snd (resume_outside_workspace
           (sampleEnvWith (inr tt) (inr None) true true None) (resumingRun true)
           "/w/test.yaml" eq_refl eq_refl)).
Defined.

(** X23: Resuming writes a runtime into launch configurations only for an image
    application with a stored runtime: otherwise no object is written. *)
Theorem resume_stamps_only_images (env : Env) (s : Run) :
  let s' := (resumeCreateNewSamApp env s).1 in
  resumeRuntime (samInitState (world s)) = None →
  store (world s') = store (world s).
Proof.
  destruct s as [w f]. unfold resumeRuntime. run.
  all: intros H; try discriminate H; try reflexivity.
  all: rewrite H; reflexivity.
Qed.

Lemma resume_stamps_only_images_witness :
  store (world (resumeCreateNewSamApp sampleEnv (resumingRun false)).1)
  = Reconciler.sampleStore.
Proof.
  exact (resume_stamps_only_images sampleEnv (resumingRun false) eq_refl).
Defined.

End WorkflowProps.
